(** * Servacal.Auxiliar: the invoice generator of [invoice.py]

    A shallow embedding of the class [InvoiceGenerator] and the properties
    its specification states about it.

    Modelling conventions.
    - A cell of a pandas table is a [value]: missing ([VNaN]), an integer,
      a float, a text or a timestamp.  A float is a double (binary64):
      sums, products and quotients are the IEEE ones, [round(x, 2)] is
      numpy's, and texts of floats are the ones Python prints.  An integer
      is one of 64 bits, and a column of integers is summed in 64 bits.
      A text is a string of ASCII characters.
    - A [DataFrame] is its column labels, the dtype of each column and its
      rows, each row a list of cells in column order.  A table keeps its
      labels and dtypes when it has no row.  Labels are taken to be
      distinct, as [pandas.read_csv] makes them.  Texts are read as pandas
      3 reads them: a column of texts has the string dtype.
    - A dict (a row turned into a record, [to_dict]) is a finite map from
      labels to cells.
    - A Python exception is the [Raise] outcome of a [res]ult.
    - What the program gets from its libraries and from the file system,
      and the model does not fix, is a [Host]: reading a CSV file, parsing
      dates, the order in which numpy adds up a column of doubles, and
      what reportlab makes of the markup of a paragraph.  A generator
      carries the host it runs on.
    - [print] appends a line to the current output stream; the renderers
      are computations over the stream, the file savers over a [World]
      made of the console and the files.
    - The console diagnostics of the loaders and of the lookups carry no
      data back into the program and are left out. *)

From Stdlib Require Import ZArith QArith Qabs Qround Floats String Ascii List Bool.
From stdpp Require Import base option list strings gmap pretty.

Set Warnings "-inexact-float".

Open Scope string_scope.

(** ** Python text *)

Module PyStr.

(** [str.isspace] on the ASCII range. *)
Definition is_space (a : ascii) : bool :=
  let n := nat_of_ascii a in
  ((9 <=? n) && (n <=? 13) || (28 <=? n) && (n <=? 32))%nat.

Fixpoint lstrip (s : string) : string :=
  match s with
  | String a s' => if is_space a then lstrip s' else s
  | EmptyString => EmptyString
  end.

Fixpoint rstrip (s : string) : string :=
  match s with
  | String a s' =>
      match rstrip s' with
      | EmptyString => if is_space a then EmptyString else String a EmptyString
      | t => String a t
      end
  | EmptyString => EmptyString
  end.

(** [s.strip()] *)
Definition strip (s : string) : string := rstrip (lstrip s).

Definition lower_ascii (a : ascii) : ascii :=
  let n := nat_of_ascii a in
  if ((65 <=? n) && (n <=? 90))%nat then ascii_of_nat (n + 32) else a.

(** [s.lower()] on the ASCII range. *)
Fixpoint lower (s : string) : string :=
  match s with
  | String a s' => String (lower_ascii a) (lower s')
  | EmptyString => EmptyString
  end.

(** [sub in s] for two texts: [sub] occurs in [s]. *)
Fixpoint contains (sub s : string) : bool :=
  String.prefix sub s ||
  match s with
  | String _ s' => contains sub s'
  | EmptyString => false
  end.

(** [s[:n]] *)
Fixpoint take (n : nat) (s : string) : string :=
  match n, s with
  | S n', String a s' => String a (take n' s')
  | _, _ => EmptyString
  end.

(** [s[n:]] *)
Fixpoint drop (n : nat) (s : string) : string :=
  match n, s with
  | S n', String _ s' => drop n' s'
  | _, _ => s
  end.

(** [c * n] for a one-character text [c]. *)
Fixpoint replicate (n : nat) (c : ascii) : string :=
  match n with
  | O => EmptyString
  | S n' => String c (replicate n' c)
  end.

Definition spaces (n : nat) : string := replicate n " "%char.

(** Format specs [{s:<w}] and [{s:>w}]: pad, never cut. *)
Definition ljust (w : nat) (s : string) : string :=
  s ++ spaces (w - String.length s).

Definition rjust (w : nat) (s : string) : string :=
  spaces (w - String.length s) ++ s.

End PyStr.

(** ** Python numbers *)

Module PyNum.

(** The integer nearest to [q], ties to the even one. *)
Definition round_half_even (q : Q) : Z :=
  let f := Qfloor q in
  match (q - inject_Z f ?= 1 # 2)%Q with
  | Lt => f
  | Gt => (f + 1)%Z
  | Eq => if Z.even f then f else (f + 1)%Z
  end.

Definition pow10 (d : nat) : positive := Pos.pow 10 (Pos.of_nat d).

(** [s.zfill(w)] for a text of digits. *)
Definition zfill (w : nat) (s : string) : string :=
  PyStr.replicate (w - String.length s) "0"%char ++ s.

(** The digits of the format spec [.{d}f] for [d >= 1] and [q >= 0]: the
    exact value rounded to [d] decimals, ties to even. *)
Definition fmt_digits (d : nat) (q : Q) : string :=
  let p := Z.pos (pow10 d) in
  let n := round_half_even (q * inject_Z p) in
  pretty (n / p)%Z ++ "." ++ zfill d (pretty (n mod p)%Z).

(** An integer as numpy keeps it in 64 bits: two's complement. *)
Definition wrap64 (n : Z) : Z := ((n + 2 ^ 63) mod 2 ^ 64 - 2 ^ 63)%Z.

End PyNum.

(** ** Doubles *)

Module PyFloat.

Import PrimFloat.
#[local] Open Scope float_scope.

(** The exact value of a finite double. *)
Definition exact (x : float) : Q :=
  match Prim2SF x with
  | S754_finite s m e =>
      ((if s then -1 else 1) * inject_Z (Z.pos m) * Qpower 2 e)%Q
  | _ => 0%Q
  end.

Definition sign_bit (x : float) : bool :=
  match Prim2SF x with
  | S754_zero s | S754_infinity s | S754_finite s _ _ => s
  | S754_nan => false
  end.

(** [float(n)] for an integer of 64 bits: the nearest double. *)
Definition of_int (n : Z) : float :=
  if (n =? - 2 ^ 63)%Z then -9223372036854775808
  else if (n <? 0)%Z then - of_uint63 (Uint63.of_Z (- n))
  else of_uint63 (Uint63.of_Z n).

Definition two52 : float := 4503599627370496.

(** [np.rint(x)]: the nearest integer, ties to even.  Below [2^52] adding
    and taking away [2^52] rounds to it; from [2^52] on every double is an
    integer. *)
Definition rint (x : float) : float :=
  if abs x <? two52 then
    if sign_bit x then - ((- x + two52) - two52) else (x + two52) - two52
  else x.

(** [round(x, 2)] for a numpy double: [np.rint(x * 100) / 100]. *)
Definition round2 (x : float) : float := rint (x * 100) / 100.

(** The format spec [.{d}f]: the exact value of the double rounded to [d]
    decimals. *)
Definition fmt_f (d : nat) (x : float) : string :=
  if is_nan x then "nan"
  else (if sign_bit x then "-" else "")
         ++ (if is_infinity x then "inf"
             else PyNum.fmt_digits d (Qabs (exact x))).

(** The decimal exponent of [q > 0], the [e] with [10^e <= q < 10^(e+1)],
    from an estimate [e] that is not below it. *)
Fixpoint exp10_from (fuel : nat) (q : Q) (e : Z) : Z :=
  match fuel with
  | O => e
  | S fuel' =>
      if Qle_bool (Qpower 10 e) q then e else exp10_from fuel' q (e - 1)
  end.

Definition exp10 (x : float) : Z :=
  match Prim2SF x with
  | S754_finite _ m e =>
      exp10_from 8 (exact x) ((e + Z.log2 (Z.pos m) + 1) * 30103 / 100000 + 1)
  | _ => 0%Z
  end.

(** Whether the decimal [d] is read back as the double [x > 0]: it lies
    between the midpoints to the neighbours of [x], or on one of them when
    the mantissa of [x] is even. *)
Definition reads_as (x : float) (d : Q) : bool :=
  let q := exact x in
  let below := exact (next_down x) in
  let above := if is_infinity (next_up x) then (q + (q - below))%Q
               else exact (next_up x) in
  let even := match Prim2SF x with
              | S754_finite _ m _ => Z.even (Z.pos m)
              | _ => true
              end in
  match ((below + q) / 2 ?= d)%Q, (d ?= (q + above) / 2)%Q with
  | Lt, Lt => true
  | Eq, Lt | Lt, Eq => even
  | _, _ => false
  end.

(** The shortest decimal that is read back as [x > 0], as an integer [m]
    and an exponent [k] for [m * 10^k]: with the fewest digits [p], and of
    the two decimals of [p] digits around [x] the nearer one. *)
Fixpoint shortest (fuel : nat) (p : Z) (x : float) (e : Z) : Z * Z :=
  let q := exact x in
  let unit := Qpower 10 (e - p + 1) in
  let n := Qfloor (q / unit) in
  let lo_ok := reads_as x (inject_Z n * unit) in
  let hi_ok := reads_as x (inject_Z (n + 1) * unit) in
  let pick :=
    if lo_ok && hi_ok then
      match (q - inject_Z n * unit ?= inject_Z (n + 1) * unit - q)%Q with
      | Gt => Some (n + 1)%Z
      | Lt => Some n
      | Eq => Some (if Z.even n then n else n + 1)%Z
      end
    else if lo_ok then Some n
    else if hi_ok then Some (n + 1)%Z
    else None in
  match pick, fuel with
  | Some m, _ => (m, (e - p + 1)%Z)
  | None, S fuel' => shortest fuel' (p + 1) x e
  | None, O => (n, (e - p + 1)%Z)
  end.

Fixpoint strip_zeros (fuel : nat) (m k : Z) : Z * Z :=
  match fuel with
  | O => (m, k)
  | S fuel' =>
      if (m mod 10 =? 0)%Z then strip_zeros fuel' (m / 10) (k + 1) else (m, k)
  end.

(** [repr(x)] for a finite [x > 0]: the shortest digits, with an exponent
    when the decimal point would be far from them. *)
Definition repr_pos (x : float) : string :=
  let '(m0, k0) := shortest 17 1 x (exp10 x) in
  let '(m, k) := strip_zeros 20 m0 k0 in
  let ds := pretty m in
  let n := Z.of_nat (String.length ds) in
  let decpt := (k + n)%Z in
  if ((decpt <=? -4) || (16 <? decpt))%Z then
    let ex := (decpt - 1)%Z in
    PyStr.take 1 ds ++ (if (n =? 1)%Z then "" else "." ++ PyStr.drop 1 ds)
      ++ "e" ++ (if (ex <? 0)%Z then "-" else "+")
      ++ PyNum.zfill 2 (pretty (Z.abs ex))
  else if (decpt <=? 0)%Z then
    "0." ++ PyStr.replicate (Z.to_nat (- decpt)) "0"%char ++ ds
  else if (n <=? decpt)%Z then
    ds ++ PyStr.replicate (Z.to_nat (decpt - n)) "0"%char ++ ".0"
  else
    PyStr.take (Z.to_nat decpt) ds ++ "." ++ PyStr.drop (Z.to_nat decpt) ds.

(** [str(x)] *)
Definition repr (x : float) : string :=
  if is_nan x then "nan"
  else (if sign_bit x then "-" else "")
         ++ (if is_infinity x then "inf"
             else if is_zero x then "0.0"
             else repr_pos (abs x)).

End PyFloat.

(** ** Cells, tables and records *)

Inductive value : Type :=
| VNaN                          (* a missing cell *)
| VInt (n : Z)
| VFloat (x : float)
| VStr (s : string)
| VTimestamp (text : string).   (* a parsed date, carried by its [str()] text *)

(** [str(v)], which is also what an f-string writes for [{v}]. *)
Definition py_str (v : value) : string :=
  match v with
  | VNaN => "nan"
  | VInt n => pretty n
  | VFloat x => PyFloat.repr x
  | VStr s => s
  | VTimestamp t => t
  end.

(** [pd.notna(v)] *)
Definition notna (v : value) : bool :=
  match v with
  | VNaN => false
  | VFloat x => negb (PrimFloat.is_nan x)
  | _ => true
  end.

(** What [astype(str)] puts in a cell: the text of the cell, and a
    missing cell stays missing. *)
Definition astype_str (v : value) : option string :=
  if notna v then Some (py_str v) else None.

(** [a == b] as the comparison of a column with a scalar decides it, cell
    by cell: numbers by value, an integer next to a float as a double,
    texts by their characters, nothing across the two kinds, and a
    missing cell equals nothing. *)
Definition py_eq (a b : value) : bool :=
  match a, b with
  | VInt m, VInt n => (m =? n)%Z
  | VInt m, VFloat y => PrimFloat.eqb (PyFloat.of_int m) y
  | VFloat x, VInt n => PrimFloat.eqb x (PyFloat.of_int n)
  | VFloat x, VFloat y => PrimFloat.eqb x y
  | VStr s, VStr t => String.eqb s t
  | VTimestamp s, VTimestamp t => String.eqb s t
  | _, _ => false
  end.

(** Exceptions and results. *)
Inductive exn : Type :=
| TypeError (msg : string)
| ValueError (msg : string)
| OSError (msg : string).

Definition exn_msg (e : exn) : string :=
  match e with
  | TypeError m | ValueError m | OSError m => m
  end.

Inductive res (A : Type) : Type :=
| Ok (a : A)
| Raise (e : exn).

Arguments Ok {A} a.
Arguments Raise {A} e.

#[global] Instance res_ret : MRet res := fun A a => Ok a.

#[global] Instance res_bind : MBind res := fun A B k r =>
  match r with
  | Ok a => k a
  | Raise e => Raise e
  end.

(** A dict from column labels to cells. *)
Abbreviation dict := (gmap string value).

(** The dtype of a column: 64-bit integers, doubles (a missing cell is
    NaN), texts, or timestamps. *)
Inductive DType : Type := Int64 | Float64 | Text | Datetime.

(** A column on its own, [df[c]]. *)
Record Series : Type := {
  dtype : DType;
  cells : list value
}.

Record DataFrame : Type := {
  columns : list string;
  dtypes : nat -> DType;        (* the dtype of the column at a position *)
  rows : list (list value)
}.

(** The dtypes of a table whose columns have the dtypes [l], in order. *)
Definition dtypes_of (l : list DType) : nat -> DType :=
  fun i => default Text (l !! i).

(** [pd.DataFrame()] *)
Definition empty_frame : DataFrame :=
  {| columns := []; dtypes := dtypes_of []; rows := [] |}.

(** [df.empty]: some axis has length 0. *)
Definition df_empty (df : DataFrame) : bool :=
  match columns df, rows df with
  | [], _ | _, [] => true
  | _, _ => false
  end.

(** [c in df.columns] *)
Definition has_column (c : string) (df : DataFrame) : bool :=
  bool_decide (c ∈ columns df).

Fixpoint index_of (c : string) (cols : list string) : option nat :=
  match cols with
  | [] => None
  | c' :: cols' => if String.eqb c c' then Some O else S <$> index_of c cols'
  end.

(** The cell of row [r] under the label [c]. *)
Definition cell (cols : list string) (c : string) (r : list value) : value :=
  match index_of c cols with
  | Some i => default VNaN (r !! i)
  | None => VNaN
  end.

(** The dtype of the column under the label [c]. *)
Definition column_dtype (df : DataFrame) (c : string) : DType :=
  match index_of c (columns df) with
  | Some i => dtypes df i
  | None => Text
  end.

(** [df[c]]: the column, with its dtype and its cells. *)
Definition series (df : DataFrame) (c : string) : Series :=
  {| dtype := column_dtype df c;
     cells := map (cell (columns df) c) (rows df) |}.

(** [df[mask]]: the rows the mask keeps, in order, under the same labels
    and dtypes. *)
Definition select (df : DataFrame) (mask : list value -> bool) : DataFrame :=
  {| columns := columns df;
     dtypes := dtypes df;
     rows := List.filter mask (rows df) |}.

(** [df[c] = s] *)
Definition set_column (df : DataFrame) (c : string) (s : Series) : DataFrame :=
  match index_of c (columns df) with
  | Some i =>
      {| columns := columns df;
         dtypes := fun j => if (j =? i)%nat then dtype s else dtypes df j;
         rows := zip_with (fun r v => <[i := v]> r) (rows df) (cells s) |}
  | None => df
  end.

(** A dict of the cells of a row under their labels. *)
Definition to_dict (cols : list string) (r : list value) : dict :=
  list_to_map (zip cols r).

(** [df.to_dict('records')]: each row under its labels, every cell as its
    column holds it. *)
Definition to_records (df : DataFrame) : list dict :=
  map (to_dict (columns df)) (rows df).

Definition is_numeric (d : DType) : bool :=
  match d with
  | Int64 | Float64 => true
  | Text | Datetime => false
  end.

(** The dtypes of the columns of a table, in order. *)
Definition column_dtypes (df : DataFrame) : list DType :=
  map (dtypes df) (seq 0 (length (columns df))).

(** Whether a row taken out of the table is a column of doubles: every
    column holds numbers and some column holds doubles. *)
Definition upcasts (df : DataFrame) : bool :=
  forallb is_numeric (column_dtypes df)
  && existsb (fun d => match d with Float64 => true | _ => false end)
       (column_dtypes df).

(** An integer cell among doubles. *)
Definition upcast (v : value) : value :=
  match v with
  | VInt n => VFloat (PyFloat.of_int n)
  | _ => v
  end.

(** A row taken out of a table, [df.iloc[i]], is a column of one dtype: in
    a table of numbers of which some column holds doubles the integers of
    the row become doubles; in any other table the cells stay as they
    are. *)
Definition iloc (df : DataFrame) (r : list value) : list value :=
  if upcasts df then map upcast r else r.

(** [df.iloc[i].to_dict()] for the row [r] of [df]. *)
Definition iloc_to_dict (df : DataFrame) (r : list value) : dict :=
  to_dict (columns df) (iloc df r).

(** [df.columns = df.columns.str.strip()] *)
Definition strip_columns (df : DataFrame) : DataFrame :=
  {| columns := map PyStr.strip (columns df);
     dtypes := dtypes df;
     rows := rows df |}.

(** ** The host: libraries, files and the clock *)

Inductive csv_result : Type :=
| FileNotFound
| ReadError (msg : string)
| Parsed (df : DataFrame).

(** What the program asks of its libraries and of the file system:
    reading a CSV file at a path; parsing the cells of a column into
    dates; adding up a column of one or more doubles, which numpy does in
    an order of its own; and the error that reportlab raises for the
    markup of a paragraph, if any. *)
Record Host : Type := {
  read_csv : string -> csv_result;
  to_datetime : list value -> res (list value);
  float_sum : list float -> float;
  paragraph_error : string -> option string
}.

Record Date : Type := { year : nat; month : nat; day : nat }.

(** [d.strftime('%Y%m%d')] *)
Definition strftime_Ymd (d : Date) : string :=
  PyNum.zfill 4 (pretty (year d)) ++ PyNum.zfill 2 (pretty (month d))
    ++ PyNum.zfill 2 (pretty (day d)).

(** [d.strftime('%Y-%m-%d')] *)
Definition strftime_Y_m_d (d : Date) : string :=
  PyNum.zfill 4 (pretty (year d)) ++ "-" ++ PyNum.zfill 2 (pretty (month d))
    ++ "-" ++ PyNum.zfill 2 (pretty (day d)).

(** ** Sums and the arithmetic of the totals *)

(** A number as the totals hold it: an integer of numpy or of Python, or
    a double. *)
Inductive number : Type :=
| NInt (n : Z)
| NFloat (x : float).

(** What the sum of a column is: a number, or for a column of texts the
    texts put together. *)
Inductive scalar : Type :=
| SNum (n : number)
| SText (s : string).

(** The integers of a column of integers. *)
Definition int_cells (vs : list value) : list Z :=
  omap (fun v => match v with VInt n => Some n | _ => None end) vs.

(** The doubles of a column of doubles as [sum] adds them: 0.0 for a
    missing cell. *)
Definition float_cells (vs : list value) : list float :=
  map (fun v => match v with
                | VFloat x => if PrimFloat.is_nan x then 0%float else x
                | VInt n => PyFloat.of_int n
                | _ => 0%float
                end) vs.

(** The texts of a column of texts, without the missing cells. *)
Definition text_cells (vs : list value) : list string :=
  omap (fun v => match v with VStr s => Some s | _ => None end) vs.

(** The sum of a column of integers: in 64 bits. *)
Definition int_sum (vs : list value) : Z :=
  PyNum.wrap64 (foldr Z.add 0%Z (int_cells vs)).

(** The sum of a column of doubles: as the host adds them, and 0.0 when
    there is none. *)
Definition float_total (h : Host) (vs : list value) : float :=
  match float_cells vs with
  | [] => 0%float
  | xs => float_sum h xs
  end.

(** [s.sum()], by the dtype of the column: integers and doubles add up;
    texts are put together, to the empty text when there is none;
    timestamps have no sum. *)
Definition series_sum (h : Host) (s : Series) : res scalar :=
  match dtype s with
  | Int64 => Ok (SNum (NInt (int_sum (cells s))))
  | Float64 => Ok (SNum (NFloat (float_total h (cells s))))
  | Text => Ok (SText (String.concat "" (text_cells (cells s))))
  | Datetime =>
      Raise (TypeError "datetime64 type does not support operation 'sum'")
  end.

(** [float(n)] *)
Definition to_float (n : number) : float :=
  match n with
  | NInt z => PyFloat.of_int z
  | NFloat x => x
  end.

(** [s * rate] for a float [rate]: a double for a number, no product for
    a text. *)
Definition mul_rate (s : scalar) (rate : float) : res number :=
  match s with
  | SNum n => Ok (NFloat (PrimFloat.mul (to_float n) rate))
  | SText _ =>
      Raise (TypeError "can't multiply sequence by non-int of type 'float'")
  end.

(** [s + t] for a double [t].  (For a text the product with the rate,
    which comes first, has raised already.) *)
Definition add_float (s : scalar) (t : number) : res number :=
  match s with
  | SNum n => Ok (NFloat (PrimFloat.add (to_float n) (to_float t)))
  | SText _ => Raise (TypeError "can only concatenate str to str")
  end.

(** [round(n, 2)]: an integer stays as it is. *)
Definition round2 (n : number) : number :=
  match n with
  | NInt z => NInt z
  | NFloat x => NFloat (PyFloat.round2 x)
  end.

(** [round(s, 2)].  (For a text the product with the rate has raised
    already.) *)
Definition round2_scalar (s : scalar) : res number :=
  match s with
  | SNum n => Ok (round2 n)
  | SText _ => Raise (TypeError "type str doesn't define __round__ method")
  end.

(** ** [class InvoiceGenerator] *)

Record InvoiceGenerator : Type := {
  clients_csv_path : string;
  works_csv_path : string;
  tax_rate : float;
  clients_df : DataFrame;
  works_df : DataFrame;
  host : Host                   (* the libraries that the object runs on *)
}.

(** [load_clients_data]: a file that cannot be read gives the empty table. *)
Definition load_clients_data (host : Host) (path : string) : DataFrame :=
  match read_csv host path with
  | Parsed df => strip_columns df
  | FileNotFound => empty_frame
  | ReadError _ => empty_frame
  end.

(** [[col for col in df.columns if 'date' in col.lower()]] *)
Definition date_like_columns (df : DataFrame) : list string :=
  List.filter (fun col => PyStr.contains "date" (PyStr.lower col)) (columns df).

(** [load_works_data].  The guard ['date' in df.columns.str.lower()] asks
    whether "date" is one of the lowered labels.  An exception in the body
    (the date parser's, or taking the head of an empty list) is caught and
    gives the empty table. *)
Definition load_works_data (host : Host) (path : string) : DataFrame :=
  match read_csv host path with
  | Parsed df0 =>
      let df := strip_columns df0 in
      if bool_decide ("date" ∈ map PyStr.lower (columns df)) then
        match date_like_columns df with
        | date_col :: _ =>
            match to_datetime host (cells (series df date_col)) with
            | Ok vs => set_column df date_col {| dtype := Datetime; cells := vs |}
            | Raise _ => empty_frame
            end
        | [] => empty_frame
        end
      else df
  | FileNotFound => empty_frame
  | ReadError _ => empty_frame
  end.

(** [__init__] *)
Definition new_generator (host : Host) (clients_path works_path : string)
    (rate : float) : InvoiceGenerator :=
  {| clients_csv_path := clients_path;
     works_csv_path := works_path;
     tax_rate := rate;
     clients_df := load_clients_data host clients_path;
     works_df := load_works_data host works_path;
     host := host |}.

(** The loop [for col in cands: if col in df.columns: ...; break]: the
    first candidate label that the table has. *)
Definition first_column (cands : list string) (df : DataFrame) : option string :=
  List.find (fun col => has_column col df) cands.

Definition client_id_columns : list string :=
  ["id"; "client_id"; "ID"; "Client_ID"; "id_number"; "ID_Number"].

(** The mask [df[col].astype(str) == client_id_str] on a row. *)
Definition client_mask (df : DataFrame) (col client_id_str : string)
    (r : list value) : bool :=
  match astype_str (cell (columns df) col r) with
  | Some s => String.eqb s client_id_str
  | None => false
  end.

(** [get_client_data] *)
Definition get_client_data (self : InvoiceGenerator) (client_id : value)
    : option dict :=
  match first_column client_id_columns (clients_df self) with
  | None => None
  | Some client_id_col =>
      let client_id_str := py_str client_id in
      let client_row :=
        select (clients_df self)
          (client_mask (clients_df self) client_id_col client_id_str) in
      if df_empty client_row then None
      else iloc_to_dict client_row <$> head (rows client_row)
  end.

Definition works_id_columns : list string :=
  ["client_id"; "Client_ID"; "id"; "ID"; "client"; "Client"].

(** [get_client_works] *)
Definition get_client_works (self : InvoiceGenerator) (client_id : value)
    : DataFrame :=
  match first_column works_id_columns (works_df self) with
  | None => empty_frame
  | Some client_id_col =>
      select (works_df self)
        (fun r => py_eq (cell (columns (works_df self)) client_id_col r) client_id)
  end.

Record Totals : Type := { subtotal : number; tax : number; total : number }.

Definition amount_columns : list string :=
  ["amount"; "import"; "price"; "cost"; "value"; "total"; "Amount"; "Import";
   "Price"].

(** [{'subtotal': 0, 'tax': 0, 'total': 0}] *)
Definition zero_totals : Totals :=
  {| subtotal := NInt 0; tax := NInt 0; total := NInt 0 |}.

(** [calculate_invoice_totals] *)
Definition calculate_invoice_totals (self : InvoiceGenerator)
    (works : DataFrame) : res Totals :=
  match first_column amount_columns works with
  | None => Ok zero_totals
  | Some amount_col =>
      sub ← series_sum (host self) (series works amount_col);
      tax_amount ← mul_rate sub (tax_rate self);
      tot ← add_float sub tax_amount;
      sub2 ← round2_scalar sub;
      Ok {| subtotal := sub2;
            tax := round2 tax_amount;
            total := round2 tot |}
  end.

Record Invoice : Type := {
  invoice_number : string;
  invoice_date : string;
  client_data : dict;
  works : list dict;
  inv_subtotal : number;
  inv_tax_rate : float;
  tax_amount : number;
  total_amount : number
}.

(** [generate_invoice], with the current date as [today]. *)
Definition generate_invoice (self : InvoiceGenerator) (today : Date)
    (client_id : value) (number date : option string) : res (option Invoice) :=
  match get_client_data self client_id with
  | None => Ok None
  | Some client =>
      let client_works := get_client_works self client_id in
      totals ← calculate_invoice_totals self client_works;
      let number :=
        default ("INV-" ++ strftime_Ymd today ++ "-" ++ py_str client_id) number in
      let date := default (strftime_Y_m_d today) date in
      Ok (Some {| invoice_number := number;
                  invoice_date := date;
                  client_data := client;
                  works := to_records client_works;
                  inv_subtotal := subtotal totals;
                  inv_tax_rate := PrimFloat.mul (tax_rate self) 100;
                  tax_amount := tax totals;
                  total_amount := total totals |})
  end.

(** ** Output streams *)

(** A computation that prints: it extends the stream of lines it is given
    and either returns or raises. *)
Definition Out (A : Type) : Type := list string -> list string * res A.

#[global] Instance out_ret : MRet Out := fun A a out => (out, Ok a).

#[global] Instance out_bind : MBind Out := fun A B k m out =>
  match m out with
  | (out', Ok a) => k a out'
  | (out', Raise e) => (out', Raise e)
  end.

(** [print(line)] *)
Definition print (line : string) : Out unit :=
  fun out => ((out ++ [line])%list, Ok tt).

Definition raise {A} (e : exn) : Out A :=
  fun out => (out, Raise e).

Definition lift_res {A} (r : res A) : Out A :=
  fun out => (out, r).

(** [for x in l: body(x)] *)
Fixpoint for_each {A} (body : A -> Out unit) (l : list A) : Out unit :=
  match l with
  | [] => mret tt
  | x :: l' => body x ;; for_each body l'
  end.

(** ** Column resolution in a record *)

(** The loop
    [for col in cands: if col in d and pd.notna(d[col]): ... d[col]; break]:
    the cell under the first candidate that the record has with a value. *)
Fixpoint first_notna (d : dict) (cands : list string) : option value :=
  match cands with
  | [] => None
  | col :: cands' =>
      match d !! col with
      | Some v => if notna v then Some v else first_notna d cands'
      | None => first_notna d cands'
      end
  end.

Definition name_columns : list string :=
  ["name"; "company_name"; "client_name"; "Name"; "Company_Name"; "Client_Name"].

Definition address_columns : list string :=
  ["address"; "Address"; "street"; "Street"].

Definition zip_columns : list string :=
  ["zip_code"; "zip"; "postal_code"; "Zip_Code"; "ZIP"; "Postal_Code"].

Definition desc_columns : list string :=
  ["description"; "concept"; "service"; "Description"; "Concept"; "Service"].

Definition date_columns : list string :=
  ["date"; "Date"; "work_date"; "Work_Date"].

(** The amount of a work item as the renderers take it: 0 when no
    candidate has a value. *)
Definition work_amount (work : dict) : value :=
  default (VInt 0) (first_notna work amount_columns).

(** An f-string field [{v:<spec>}] whose spec ends in [.2f]: a number is
    written with two decimals, an integer as the double it converts to,
    and padded by [pad]; a text has no such format; a timestamp hands the
    spec to [strftime], which returns it as it is. *)
Definition format_2f (spec : string) (pad : string -> string) (v : value)
    : res string :=
  match v with
  | VInt n => Ok (pad (PyFloat.fmt_f 2 (PyFloat.of_int n)))
  | VFloat x => Ok (pad (PyFloat.fmt_f 2 x))
  | VNaN => Ok (pad "nan")
  | VStr _ => Raise (ValueError "Unknown format code 'f' for object of type 'str'")
  | VTimestamp _ => Ok spec
  end.

(** The format spec [.{d}f] for a number of the totals. *)
Definition fmt_number (d : nat) (n : number) : string :=
  PyFloat.fmt_f d (to_float n).

(** ** The text renderer *)

Definition rule (c : ascii) : string := PyStr.replicate 60 c.

(** One line of the services table. *)
Definition print_work (work : dict) : Out unit :=
  let description :=
    match first_notna work desc_columns with
    | Some v => PyStr.take 28 (py_str v)
    | None => "Service"
    end in
  let work_date :=
    match first_notna work date_columns with
    | Some v => PyStr.take 10 (py_str v)
    | None => "N/A"
    end in
  let amount := work_amount work in
  a ← lift_res (format_2f "<9.2f" (PyStr.ljust 9) amount);
  print (PyStr.ljust 30 description ++ " " ++ PyStr.ljust 12 work_date
           ++ " $" ++ a).

(** [print_invoice] *)
Definition print_invoice (self : InvoiceGenerator) (invoice : option Invoice)
    : Out unit :=
  match invoice with
  | None => print "No invoice to print"
  | Some invoice =>
      print (rule "=") ;;
      print ("INVOICE #" ++ invoice_number invoice) ;;
      print (rule "=") ;;
      print ("Date: " ++ invoice_date invoice) ;;
      print "" ;;
      print "BILL TO:" ;;
      let client := client_data invoice in
      let client_name :=
        default (VStr "Unknown Client") (first_notna client name_columns) in
      print ("  " ++ py_str client_name) ;;
      match first_notna client address_columns with
      | Some v => print ("  " ++ py_str v)
      | None => mret tt
      end ;;
      match first_notna client zip_columns with
      | Some v => print ("  " ++ py_str v)
      | None => mret tt
      end ;;
      print "" ;;
      print "SERVICES:" ;;
      print (rule "-") ;;
      print (PyStr.ljust 30 "Description" ++ " " ++ PyStr.ljust 12 "Date"
               ++ " " ++ PyStr.ljust 10 "Amount") ;;
      print (rule "-") ;;
      for_each print_work (works invoice) ;;
      print (rule "-") ;;
      print (PyStr.ljust 54 "Subtotal:" ++ " $"
               ++ PyStr.rjust 8 (fmt_number 2 (inv_subtotal invoice))) ;;
      print (PyStr.ljust 54 ("Tax (" ++ PyFloat.repr (inv_tax_rate invoice) ++ "%):")
               ++ " $" ++ PyStr.rjust 8 (fmt_number 2 (tax_amount invoice))) ;;
      print (rule "=") ;;
      print (PyStr.ljust 54 "TOTAL:" ++ " $"
               ++ PyStr.rjust 8 (fmt_number 2 (total_amount invoice))) ;;
      print (rule "=")
  end.


(** ** Files *)

Inductive Style : Type := InvoiceTitle | InvoiceHeader | InvoiceNormal | ClientInfo.

(** The pieces of a PDF story.  Table styling and column widths are
    layout only and are left out. *)
Inductive Flowable : Type :=
| Paragraph (text : string) (style : Style)
| Spacer (width height : Z)
| Table (data : list (list string)).

Inductive File : Type :=
| TextFile (lines : list string)
| PdfFile (story : list Flowable).

(** The console, the files, and for each path the error that opening it
    for writing raises, if any. *)
Record World : Type := {
  console : list string;
  disk : gmap string File;
  open_error : string -> option string
}.

Definition say (line : string) (w : World) : World :=
  {| console := (console w ++ [line])%list;
     disk := disk w;
     open_error := open_error w |}.

Definition write_file (path : string) (f : File) (w : World) : World :=
  {| console := console w;
     disk := <[path := f]> (disk w);
     open_error := open_error w |}.

(** [save_invoice_to_file].  Inside [with open(filename, 'w')] the prints
    of [print_invoice] go to the file, which is created first and holds
    what was printed when an exception ends the block. *)
Definition save_invoice_to_file (self : InvoiceGenerator)
    (invoice : option Invoice) (filename : option string) (w : World) : World :=
  match invoice with
  | None => say "No invoice to save" w
  | Some inv =>
      let filename :=
        default ("invoice_" ++ invoice_number inv ++ ".txt") filename in
      match open_error w filename with
      | Some msg => say ("Error saving invoice: " ++ msg) w
      | None =>
          match print_invoice self (Some inv) [] with
          | (lines, Ok _) =>
              say ("Invoice saved to " ++ filename)
                (write_file filename (TextFile lines) w)
          | (lines, Raise e) =>
              say ("Error saving invoice: " ++ exn_msg e)
                (write_file filename (TextFile lines) w)
          end
      end
  end.

(** One row of the services table of the PDF. *)
Definition pdf_work_row (work : dict) : res (list string) :=
  let description :=
    match first_notna work desc_columns with
    | Some v => py_str v
    | None => "Service"
    end in
  let work_date :=
    match first_notna work date_columns with
    | Some v => PyStr.take 10 (py_str v)
    | None => "N/A"
    end in
  let amount := work_amount work in
  a ← format_2f ".2f" id amount;
  Ok [description; work_date; "$" ++ a].

(** The rows that close the table: a blank row and the three totals. *)
Definition pdf_totals_rows (invoice : Invoice) : list (list string) :=
  [ [""; ""; ""];
    ["Subtotal:"; ""; "$" ++ fmt_number 2 (inv_subtotal invoice)];
    ["Tax (" ++ PyFloat.fmt_f 1 (inv_tax_rate invoice) ++ "%):"; "";
     "$" ++ fmt_number 2 (tax_amount invoice)];
    ["TOTAL:"; ""; "$" ++ fmt_number 2 (total_amount invoice)] ].

(** [Paragraph(text, style)] for a text of the invoice: reportlab reads
    the text as markup and raises when it is not well formed.  (The fixed
    texts of the story are.) *)
Definition paragraph (h : Host) (text : string) (style : Style) : res Flowable :=
  match paragraph_error h text with
  | Some msg => Raise (ValueError msg)
  | None => Ok (Paragraph text style)
  end.

Definition pdf_heading (h : Host) (invoice : Invoice) : res (list Flowable) :=
  number ← paragraph h ("<b>Invoice #:</b> " ++ invoice_number invoice)
             InvoiceNormal;
  date ← paragraph h ("<b>Date:</b> " ++ invoice_date invoice) InvoiceNormal;
  Ok [ Paragraph "INVOICE" InvoiceTitle; Spacer 1 20; number; date;
       Spacer 1 20 ].

(** The paragraph of a field of the client that may be missing. *)
Definition optional_paragraph (h : Host) (field : option value)
    : res (list Flowable) :=
  match field with
  | Some v => p ← paragraph h (py_str v) InvoiceNormal; Ok [p]
  | None => Ok []
  end.

Definition pdf_bill_to (h : Host) (client : dict) : res (list Flowable) :=
  let client_name :=
    default (VStr "Unknown Client") (first_notna client name_columns) in
  name ← paragraph h (py_str client_name) ClientInfo;
  address ← optional_paragraph h (first_notna client address_columns);
  zip_code ← optional_paragraph h (first_notna client zip_columns);
  Ok (Paragraph "BILL TO:" InvoiceHeader :: name :: address ++ zip_code)%list.

(** The story that [save_invoice_to_pdf] builds, in the order of the
    source: the heading, the client, the rows of the table. *)
Definition pdf_story (self : InvoiceGenerator) (invoice : Invoice)
    : res (list Flowable) :=
  heading ← pdf_heading (host self) invoice;
  bill_to ← pdf_bill_to (host self) (client_data invoice);
  work_rows ← mapM pdf_work_row (works invoice);
  let table_data :=
    (["Description"; "Date"; "Amount"] :: work_rows
       ++ pdf_totals_rows invoice)%list in
  Ok (heading ++ bill_to
        ++ [ Spacer 1 30;
             Paragraph "SERVICES:" InvoiceHeader;
             Spacer 1 10;
             Table table_data;
             Spacer 1 30;
             Paragraph "Thank you for your business!" InvoiceNormal;
             Paragraph "For questions about this invoice, please contact us."
               InvoiceNormal ])%list.

(** [save_invoice_to_pdf]: the file is written by [doc.build(story)], the
    last step; any exception before it leaves the disk as it was. *)
Definition save_invoice_to_pdf (self : InvoiceGenerator)
    (invoice : option Invoice) (filename : option string) (w : World) : World :=
  match invoice with
  | None => say "No invoice to save" w
  | Some inv =>
      let filename :=
        default ("invoice_" ++ invoice_number inv ++ ".pdf") filename in
      match pdf_story self inv with
      | Raise e => say ("Error saving invoice to PDF: " ++ exn_msg e) w
      | Ok story =>
          match open_error w filename with
          | Some msg => say ("Error saving invoice to PDF: " ++ msg) w
          | None =>
              say ("Invoice PDF saved to " ++ filename)
                (write_file filename (PdfFile story) w)
          end
      end
  end.

(** [main]: the invoice of client 12345 from "clients.csv" and
    "works.csv" at 21%, printed and saved twice.  An exception of
    [generate_invoice] or of [print_invoice] is not caught here and ends
    the run with what the console holds by then. *)
Definition main (host : Host) (today : Date) (w : World) : World * res unit :=
  let generator := new_generator host "clients.csv" "works.csv" 0.21%float in
  let client_id := VInt 12345 in
  match generate_invoice generator today client_id None None with
  | Raise e => (w, Raise e)
  | Ok None => (say "Failed to generate invoice" w, Ok tt)
  | Ok (Some invoice) =>
      match print_invoice generator (Some invoice) (console w) with
      | (out, Raise e) =>
          ({| console := out; disk := disk w; open_error := open_error w |},
           Raise e)
      | (out, Ok _) =>
          let w1 :=
            {| console := out; disk := disk w; open_error := open_error w |} in
          let w2 := save_invoice_to_file generator (Some invoice) None w1 in
          (save_invoice_to_pdf generator (Some invoice) None w2, Ok tt)
      end
  end.


(** ** Notions that the statements use *)

(** The amounts of a table are numbers: the column that
    [calculate_invoice_totals] resolves, if any, holds integers or
    doubles. *)
Definition numeric_amounts (df : DataFrame) : bool :=
  match first_column amount_columns df with
  | Some col => is_numeric (column_dtype df col)
  | None => true
  end.

(** The work items of a client under the matching rule of the client
    lookup: the cells as texts against the query as a text.
    [get_client_works] is compared with it; the program does not use it. *)
Definition works_matching_as_text (self : InvoiceGenerator) (client_id : value)
    : DataFrame :=
  match first_column works_id_columns (works_df self) with
  | None => empty_frame
  | Some client_id_col =>
      select (works_df self)
        (client_mask (works_df self) client_id_col (py_str client_id))
  end.

(** A candidate that the record lacks, or has without a value. *)
Definition unresolved (d : dict) (col : string) : Prop :=
  d !! col = None \/ exists v, d !! col = Some v /\ notna v = false.

(** A printing computation only appends: what it prints and what it
    returns do not depend on what the stream already holds. *)
Definition appends {A} (m : Out A) : Prop :=
  forall out, m out = ((out ++ (m []).1)%list, (m []).2).

(** Every row has a cell for every label. *)
Definition well_formed (df : DataFrame) : Prop :=
  Forall (fun r => length r = length (columns df)) (rows df).

(** The generator with another works table. *)
Definition with_works (self : InvoiceGenerator) (df : DataFrame)
    : InvoiceGenerator :=
  {| clients_csv_path := clients_csv_path self;
     works_csv_path := works_csv_path self;
     tax_rate := tax_rate self;
     clients_df := clients_df self;
     works_df := df;
     host := host self |}.

(** The amount that the renderers take for a work item is a text. *)
Definition text_amount (work : dict) : bool :=
  match work_amount work with
  | VStr _ => true
  | _ => false
  end.


(** A number of the totals that is zero: the integer 0, or the double 0.0
    with either sign. *)
Definition number_is_zero (n : number) : bool :=
  match n with
  | NInt z => (z =? 0)%Z
  | NFloat x => PrimFloat.eqb x 0
  end.

(** The texts of an invoice that [save_invoice_to_pdf] hands to
    [Paragraph]: the number, the date, the name of the client, and the
    address and the zip code when the client has them. *)
Definition paragraph_texts (invoice : Invoice) : list string :=
  let client := client_data invoice in
  let fixed :=
    [ "<b>Invoice #:</b> " ++ invoice_number invoice;
      "<b>Date:</b> " ++ invoice_date invoice;
      py_str (default (VStr "Unknown Client") (first_notna client name_columns)) ] in
  (fixed ++ option_list (py_str <$> first_notna client address_columns)
     ++ option_list (py_str <$> first_notna client zip_columns))%list.

(** The host takes every one of these texts as markup. *)
Definition markup_ok (h : Host) (invoice : Invoice) : bool :=
  forallb (fun text => match paragraph_error h text with
                       | None => true
                       | Some _ => false
                       end)
    (paragraph_texts invoice).

(** ** Sample data *)

Module Samples.

Definition today : Date := {| year := 2024; month := 2; day := 3 |}.

(** A date parser for the samples: a text becomes the timestamp at
    midnight, anything else stays. *)
Definition midnight (vs : list value) : res (list value) :=
  Ok (map (fun v => match v with
                    | VStr s => VTimestamp (s ++ " 00:00:00")
                    | _ => v
                    end) vs).

(** Adding up from left to right, from the first double on. *)
Definition left_to_right (xs : list float) : float :=
  match xs with
  | [] => 0%float
  | x :: xs' => foldl PrimFloat.add x xs'
  end.

(** Markup in which a tag is opened and not closed. *)
Fixpoint open_tag (inside : bool) (text : string) : bool :=
  match text with
  | EmptyString => inside
  | String c text' =>
      if Ascii.eqb c "<" then open_tag true text'
      else if Ascii.eqb c ">" then open_tag false text'
      else open_tag inside text'
  end.

Definition unclosed (text : string) : option string :=
  if open_tag false text then Some "paraparser: syntax error: unclosed tag"
  else None.

(** A host with the two files at "clients.csv" and "works.csv". *)
Definition host_of (clients works : DataFrame) : Host :=
  {| read_csv := fun path =>
       if String.eqb path "clients.csv" then Parsed clients
       else if String.eqb path "works.csv" then Parsed works
       else FileNotFound;
     to_datetime := midnight;
     float_sum := left_to_right;
     paragraph_error := unclosed |}.

(** A host with no file at all. *)
Definition bare_host : Host :=
  {| read_csv := fun _ => FileNotFound;
     to_datetime := midnight;
     float_sum := left_to_right;
     paragraph_error := unclosed |}.

(** A host with the client file only. *)
Definition clients_only_host (clients : DataFrame) : Host :=
  {| read_csv := fun path =>
       if String.eqb path "clients.csv" then Parsed clients else FileNotFound;
     to_datetime := midnight;
     float_sum := left_to_right;
     paragraph_error := unclosed |}.

Definition generator_of (clients works : DataFrame) (rate : float)
    : InvoiceGenerator :=
  new_generator (host_of clients works) "clients.csv" "works.csv" rate.

(** The files that the module writes when run as a script, as the CSV
    reader gives them. *)
Definition demo_clients : DataFrame :=
  {| columns := ["id"; "name"; "address"; "zip_code"];
     dtypes := dtypes_of [Int64; Text; Text; Int64];
     rows :=
       [ [VInt 12345; VStr "ABC Corporation"; VStr "123 Main St"; VInt 10001];
         [VInt 67890; VStr "John Doe"; VStr "456 Oak Ave"; VInt 90210];
         [VInt 11111; VStr "XYZ Ltd"; VStr "789 Pine Rd"; VInt 12345] ] |}.

Definition demo_works : DataFrame :=
  {| columns := ["client_id"; "date"; "description"; "amount"];
     dtypes := dtypes_of [Int64; Text; Text; Float64];
     rows :=
       [ [VInt 12345; VStr "2024-01-15"; VStr "Web Development"; VFloat 1500];
         [VInt 12345; VStr "2024-01-20"; VStr "Database Setup"; VFloat 800];
         [VInt 67890; VStr "2024-01-18"; VStr "Consulting"; VFloat 300];
         [VInt 12345; VStr "2024-01-25"; VStr "Bug Fixes"; VFloat 400] ] |}.

Definition demo : InvoiceGenerator :=
  generator_of demo_clients demo_works 0.21.

(** The invoice that the script prints and saves, if it gets one. *)
Definition demo_invoice : option Invoice :=
  match generate_invoice demo today (VInt 12345) None None with
  | Ok invoice => invoice
  | Raise _ => None
  end.

(** The example of the specification: one client, two work items. *)
Definition acme_clients : DataFrame :=
  {| columns := ["id"; "name"];
     dtypes := dtypes_of [Text; Text];
     rows := [ [VStr "1"; VStr "Acme"] ] |}.

Definition acme_works : DataFrame :=
  {| columns := ["client_id"; "amount"];
     dtypes := dtypes_of [Text; Float64];
     rows := [ [VStr "1"; VFloat 100]; [VStr "1"; VFloat 50] ] |}.

Definition acme : InvoiceGenerator :=
  generator_of acme_clients acme_works 0.21.

(** A client file with one client, as the CSV reader gives it. *)
Definition solo_clients : DataFrame :=
  {| columns := ["id"; "name"];
     dtypes := dtypes_of [Int64; Text];
     rows := [ [VInt 1; VStr "Acme"] ] |}.

(** One work item of 10.104. *)
Definition sub_cent_works : DataFrame :=
  {| columns := ["client_id"; "amount"];
     dtypes := dtypes_of [Int64; Float64];
     rows := [ [VInt 1; VFloat 10.104] ] |}.


(** One work item of 7.50, and one of 0.545. *)
Definition half_cent_works : DataFrame :=
  {| columns := ["client_id"; "amount"];
     dtypes := dtypes_of [Int64; Float64];
     rows := [ [VInt 1; VFloat 7.5]; [VInt 2; VFloat 0.545] ] |}.

Definition half_cent : InvoiceGenerator :=
  generator_of solo_clients half_cent_works 0.21.

(** Whole amounts that do not fit in 64 bits together. *)
Definition large_works : DataFrame :=
  {| columns := ["client_id"; "amount"];
     dtypes := dtypes_of [Int64; Int64];
     rows := [ [VInt 1; VInt 9223372036854775807]; [VInt 1; VInt 1] ] |}.

Definition large : InvoiceGenerator :=
  generator_of solo_clients large_works 0.21.

(** An amount written with a decimal comma, which the CSV reader keeps
    as a text. *)
Definition comma_works : DataFrame :=
  {| columns := ["client_id"; "amount"];
     dtypes := dtypes_of [Int64; Text];
     rows := [ [VInt 1; VStr "12,50"] ] |}.

Definition comma : InvoiceGenerator :=
  generator_of solo_clients comma_works 0.21.

(** Two clients, and a works file with an amount written with a decimal
    comma for the first of them only. *)
Definition two_clients : DataFrame :=
  {| columns := ["id"; "name"];
     dtypes := dtypes_of [Int64; Text];
     rows := [ [VInt 1; VStr "Acme"]; [VInt 3; VStr "Initech"] ] |}.

Definition comma_other : InvoiceGenerator :=
  generator_of two_clients comma_works 0.21.

(** A works table whose client column is there but names another client. *)
Definition other_works : DataFrame :=
  {| columns := ["client_id"; "amount"];
     dtypes := dtypes_of [Text; Float64];
     rows := [ [VStr "2"; VFloat 75] ] |}.

Definition no_works : InvoiceGenerator :=
  generator_of acme_clients other_works 0.21.

(** A works table with no amount-like column. *)
Definition hours_works : DataFrame :=
  {| columns := ["client_id"; "hours"];
     dtypes := dtypes_of [Text; Float64];
     rows := [ [VStr "1"; VFloat 3]; [VStr "1"; VFloat 4] ] |}.

(** Two amount-like columns, the first one with a missing cell. *)
Definition two_amounts_works : DataFrame :=
  {| columns := ["client_id"; "Amount"; "amount"];
     dtypes := dtypes_of [Text; Float64; Float64];
     rows := [ [VStr "1"; VFloat 5; VNaN]; [VStr "1"; VFloat 7; VFloat 2] ] |}.

Definition two_amounts_other : DataFrame :=
  {| columns := ["client_id"; "Amount"; "amount"];
     dtypes := dtypes_of [Text; Float64; Float64];
     rows := [ [VStr "1"; VFloat 90; VNaN]; [VStr "2"; VNaN; VFloat 2] ] |}.

(** A works table whose only date-like column is "work_date". *)
Definition work_date_works : DataFrame :=
  {| columns := ["client_id"; "work_date"; "amount"];
     dtypes := dtypes_of [Int64; Text; Float64];
     rows := [ [VInt 1; VStr "2024-01-15"; VFloat 100] ] |}.

(** The same table with the column named "Date". *)
Definition date_works : DataFrame :=
  {| columns := ["client_id"; "Date"; "amount"];
     dtypes := dtypes_of [Int64; Text; Float64];
     rows := [ [VInt 1; VStr "2024-01-15"; VFloat 100] ] |}.

(** A works table with a due date before the date of the work. *)
Definition two_dates_works : DataFrame :=
  {| columns := ["client_id"; "due_date"; "date"; "amount"];
     dtypes := dtypes_of [Int64; Text; Text; Float64];
     rows := [ [VInt 1; VStr "2024-02-15"; VStr "2024-01-15"; VFloat 100] ] |}.

(** A host whose date parser rejects what it is given. *)
Definition strict_host (works : DataFrame) : Host :=
  {| read_csv := fun path =>
       if String.eqb path "works.csv" then Parsed works else FileNotFound;
     to_datetime := fun _ =>
       Raise (ValueError "Unknown datetime string format");
     float_sum := left_to_right;
     paragraph_error := unclosed |}.

(** A client file of numbers only: an identifier and a balance. *)
Definition balance_clients : DataFrame :=
  {| columns := ["id"; "balance"];
     dtypes := dtypes_of [Int64; Float64];
     rows := [ [VInt 1; VFloat 250.5] ] |}.

Definition balance : InvoiceGenerator :=
  generator_of balance_clients acme_works 0.21.

(** A client file in which the first identifier is missing. *)
Definition missing_id_clients : DataFrame :=
  {| columns := ["id"; "name"];
     dtypes := dtypes_of [Float64; Text];
     rows := [ [VNaN; VStr "Acme"]; [VFloat 2; VStr "Initech"] ] |}.

Definition missing_id : InvoiceGenerator :=
  generator_of missing_id_clients acme_works 0.21.

(** A client whose name opens a tag. *)
Definition tag_clients : DataFrame :=
  {| columns := ["id"; "name"];
     dtypes := dtypes_of [Int64; Text];
     rows := [ [VInt 1; VStr "A <b"] ] |}.

Definition tag : InvoiceGenerator :=
  generator_of tag_clients sub_cent_works 0.21.

Definition tag_invoice : option Invoice :=
  match generate_invoice tag today (VInt 1) None None with
  | Ok invoice => invoice
  | Raise _ => None
  end.

(** A record with both spellings of the amount. *)
Definition both_amounts : dict :=
  {[ "Amount" := VFloat 5; "amount" := VFloat 7 ]}.

Definition blank_world : World :=
  {| console := []; disk := ∅; open_error := fun _ => None |}.

End Samples.

(** * Properties *)

(** ** Doubles *)

Section Doubles.

Import PrimFloat.
#[local] Open Scope float_scope.

(** Zero times a finite double is zero, of one sign or the other. *)
Lemma mul_zero_finite (r : float) :
  is_finite r = true -> 0 * r = 0 \/ 0 * r = -0.
Proof.
  intros Hfin.
  assert (H : Prim2SF (0 * r) = S754_zero false
              \/ Prim2SF (0 * r) = S754_zero true).
  { rewrite mul_spec. unfold is_finite, is_nan, is_infinity in Hfin.
    rewrite !FloatAxioms.eqb_spec, abs_spec in Hfin.
    change (Prim2SF 0) with (S754_zero false).
    change (Prim2SF infinity) with (S754_infinity false) in Hfin.
    destruct (Prim2SF r) as [s|s| |s m e].
    - destruct s; cbn; auto.
    - destruct s; cbv in Hfin; discriminate.
    - cbv in Hfin. discriminate.
    - destruct s; cbn; auto. }
  destruct H as [H|H]; [left|right]; apply Prim2SF_inj; rewrite H; reflexivity.
Qed.

(** The totals of no amount at a finite rate: zero, zero and zero. *)
Lemma zero_at_rate (r : float) :
  is_finite r = true ->
  (PyFloat.round2 (0 * r) =? 0) = true
  /\ (PyFloat.round2 (0 + 0 * r) =? 0) = true.
Proof.
  intros Hfin. destruct (mul_zero_finite r Hfin) as [-> | ->];
    split; vm_compute; reflexivity.
Qed.

(** Doubles are written from their exact value: 2.675 with two decimals
    is 2.67, and the texts of 7.000000000000001 and of 0.21 * 100 are the
    shortest ones that read back. *)
Example doubles_as_texts :
  PyFloat.fmt_f 2 2.675 = "2.67"
  /\ PyFloat.repr 7.000000000000001 = "7.000000000000001"
  /\ PyFloat.repr (0.21 * 100) = "21.0"
  /\ PyFloat.repr (0.1 + 0.2) = "0.30000000000000004".
Proof. repeat split; vm_compute; reflexivity. Qed.

End Doubles.

(** ** Totals *)

Lemma calculate_invoice_totals_floats (self : InvoiceGenerator)
    (works : DataFrame) (col : string) :
  first_column amount_columns works = Some col ->
  column_dtype works col = Float64 ->
  calculate_invoice_totals self works
  = let S := float_total (host self) (cells (series works col)) in
    Ok {| subtotal := NFloat (PyFloat.round2 S);
          tax := NFloat (PyFloat.round2 (PrimFloat.mul S (tax_rate self)));
          total :=
            NFloat (PyFloat.round2
                      (PrimFloat.add S (PrimFloat.mul S (tax_rate self)))) |}.
Proof.
  intros Hcol Hdtype. unfold calculate_invoice_totals. rewrite Hcol.
  unfold series_sum. cbn [dtype series]. rewrite Hdtype. reflexivity.
Qed.

Lemma calculate_invoice_totals_ints (self : InvoiceGenerator)
    (works : DataFrame) (col : string) :
  first_column amount_columns works = Some col ->
  column_dtype works col = Int64 ->
  calculate_invoice_totals self works
  = let S := int_sum (cells (series works col)) in
    Ok {| subtotal := NInt S;
          tax := NFloat (PyFloat.round2
                           (PrimFloat.mul (PyFloat.of_int S) (tax_rate self)));
          total :=
            NFloat (PyFloat.round2
                      (PrimFloat.add (PyFloat.of_int S)
                         (PrimFloat.mul (PyFloat.of_int S) (tax_rate self)))) |}.
Proof.
  intros Hcol Hdtype. unfold calculate_invoice_totals. rewrite Hcol.
  unfold series_sum. cbn [dtype series]. rewrite Hdtype. reflexivity.
Qed.





(** Rounding is the one of doubles: 7.50 at 21% has the total 9.07, and
    the amount 0.545 the subtotal 0.55. *)
Example calculate_invoice_totals_half_cent :
  calculate_invoice_totals Samples.half_cent
    (get_client_works Samples.half_cent (VInt 1))
  = Ok {| subtotal := NFloat 7.5; tax := NFloat 1.58; total := NFloat 9.07 |}
  /\ calculate_invoice_totals Samples.half_cent
       (get_client_works Samples.half_cent (VInt 2))
     = Ok {| subtotal := NFloat 0.55; tax := NFloat 0.11;
             total := NFloat 0.66 |}.
Proof. split; vm_compute; reflexivity. Qed.

(** A column of integers is added up in 64 bits: the largest integer and
    1 give the smallest one. *)
Example calculate_invoice_totals_large :
  exists t,
    calculate_invoice_totals Samples.large
      (get_client_works Samples.large (VInt 1)) = Ok t
    /\ subtotal t = NInt (- 2 ^ 63).
Proof. eexists. split; vm_compute; reflexivity. Qed.

(** ** Looking a client up *)

Section ClientLookup.

Variable self : InvoiceGenerator.

Lemma first_column_Some (cands : list string) (df : DataFrame) (col : string) :
  first_column cands df = Some col -> col ∈ cands /\ col ∈ columns df.
Proof.
  unfold first_column. intros H. apply find_some in H as [Hin Hhas].
  split; [by apply list_elem_of_In|].
  unfold has_column in Hhas. by apply bool_decide_eq_true in Hhas.
Qed.

Lemma first_column_None (cands : list string) (df : DataFrame) :
  first_column cands df = None <-> forall col, col ∈ cands -> col ∉ columns df.
Proof.
  unfold first_column. split.
  - intros H col Hin Hcol. apply list_elem_of_In in Hin.
    pose proof (find_none _ _ H col Hin) as Hf. unfold has_column in Hf.
    apply bool_decide_eq_false in Hf. by apply Hf.
  - intros H. destruct (find _ cands) as [col|] eqn:Hfind; [|reflexivity].
    apply find_some in Hfind as [Hin Hhas]. exfalso.
    apply (H col); [by apply list_elem_of_In|].
    unfold has_column in Hhas. by apply bool_decide_eq_true in Hhas.
Qed.

(** The mask keeps a row when the text of its identifier is the text
    that is looked for. *)
Lemma client_mask_true (df : DataFrame) (col s : string) (r : list value) :
  client_mask df col s r = true <-> astype_str (cell (columns df) col r) = Some s.
Proof.
  unfold client_mask. destruct (astype_str _) as [t|].
  - rewrite String.eqb_eq. split; congruence.
  - split; discriminate.
Qed.

Lemma client_mask_false (df : DataFrame) (col s : string) (r : list value) :
  client_mask df col s r = false <-> astype_str (cell (columns df) col r) <> Some s.
Proof.
  rewrite <- client_mask_true. by destruct (client_mask df col s r).
Qed.

(** The lookup keeps the first row whose identifier reads as the query. *)
Lemma get_client_data_first_match (client_id : value) (col : string) :
  first_column client_id_columns (clients_df self) = Some col ->
  get_client_data self client_id
  = iloc_to_dict (clients_df self)
      <$> head (List.filter
                  (client_mask (clients_df self) col (py_str client_id))
                  (rows (clients_df self))).
Proof.
  intros Hcol. unfold get_client_data. rewrite Hcol.
  apply first_column_Some in Hcol as [_ Hin].
  unfold df_empty, select. cbn [columns rows].
  destruct (columns (clients_df self)) as [|c cs] eqn:Hcs.
  { by apply elem_of_nil in Hin. }
  destruct (List.filter _ (rows (clients_df self))) as [|r rs]; [reflexivity|].
  cbn [head fmap option_fmap option_map]. f_equal.
  unfold iloc_to_dict, iloc, upcasts, column_dtypes. cbn [columns dtypes].
  by rewrite Hcs.
Qed.

Lemma head_filter_first {A} (f : A -> bool) (before after : list A) (x : A) :
  (forall y, y ∈ before -> f y = false) -> f x = true ->
  head (List.filter f (before ++ x :: after)) = Some x.
Proof.
  intros Hb Hx. induction before as [|y before IH]; simpl.
  - by rewrite Hx.
  - rewrite (Hb y) by apply list_elem_of_here.
    apply IH. intros z Hz. apply Hb. by apply list_elem_of_further.
Qed.

Lemma filter_none {A} (f : A -> bool) (l : list A) :
  (forall y, y ∈ l -> f y = false) -> List.filter f l = [].
Proof.
  intros Hl. induction l as [|y l IH]; simpl; [reflexivity|].
  rewrite (Hl y) by apply list_elem_of_here.
  apply IH. intros z Hz. apply Hl. by apply list_elem_of_further.
Qed.

Lemma get_client_data_absent (client_id : value) :
  (forall col r,
      first_column client_id_columns (clients_df self) = Some col ->
      r ∈ rows (clients_df self) ->
      astype_str (cell (columns (clients_df self)) col r)
      <> Some (py_str client_id)) ->
  get_client_data self client_id = None.
Proof.
  intros Habs.
  destruct (first_column client_id_columns (clients_df self)) as [col|] eqn:Hcol.
  - rewrite (get_client_data_first_match _ col Hcol).
    rewrite filter_none; [reflexivity|].
    intros r Hr. apply client_mask_false. by apply Habs.
  - unfold get_client_data. by rewrite Hcol.
Qed.

Lemma get_client_data_present (client_id : value) (col : string)
    (before after : list (list value)) (r : list value) :
  first_column client_id_columns (clients_df self) = Some col ->
  rows (clients_df self) = (before ++ r :: after)%list ->
  astype_str (cell (columns (clients_df self)) col r) = Some (py_str client_id) ->
  (forall r', r' ∈ before ->
     astype_str (cell (columns (clients_df self)) col r')
     <> Some (py_str client_id)) ->
  get_client_data self client_id = Some (iloc_to_dict (clients_df self) r).
Proof.
  intros Hcol Hrows Hr Hbefore.
  rewrite (get_client_data_first_match _ col Hcol), Hrows.
  rewrite head_filter_first; [reflexivity| |].
  - intros r' Hr'. apply client_mask_false. by apply Hbefore.
  - by apply client_mask_true.
Qed.

End ClientLookup.

(** ** Assembling an invoice *)

Lemma calculate_invoice_totals_returns (self : InvoiceGenerator)
    (works : DataFrame) :
  numeric_amounts works = true ->
  exists t, calculate_invoice_totals self works = Ok t.
Proof.
  unfold numeric_amounts.
  destruct (first_column amount_columns works) as [col|] eqn:Hcol.
  - intros Hnum. destruct (column_dtype works col) eqn:Hdtype;
      try discriminate.
    + rewrite (calculate_invoice_totals_ints self works col Hcol Hdtype). eauto.
    + rewrite (calculate_invoice_totals_floats self works col Hcol Hdtype). eauto.
  - intros _. unfold calculate_invoice_totals. rewrite Hcol. eauto.
Qed.

Lemma generate_invoice_of_client (self : InvoiceGenerator) (today : Date)
    (client_id : value) (number date : option string) (client : dict) :
  get_client_data self client_id = Some client ->
  numeric_amounts (get_client_works self client_id) = true ->
  exists inv,
    generate_invoice self today client_id number date = Ok (Some inv)
    /\ client_data inv = client
    /\ works inv = to_records (get_client_works self client_id)
    /\ calculate_invoice_totals self (get_client_works self client_id)
       = Ok {| subtotal := inv_subtotal inv;
               tax := tax_amount inv;
               total := total_amount inv |}.
Proof.
  intros Hclient Hnum. unfold generate_invoice. rewrite Hclient.
  destruct (calculate_invoice_totals_returns self _ Hnum) as ([s t u] & Ht).
  rewrite Ht. cbn [mbind res_bind]. eexists. split; [reflexivity|].
  cbn [client_data works inv_subtotal tax_amount total_amount subtotal tax total].
  auto.
Qed.

(** C2, as the code has it.  A client id whose text is the text of no
    cell of the identifier column of the client table (a missing cell
    has no text), or a table with no identifier column, makes
    [generate_invoice] return [None].  A client id that is present makes
    it return an invoice whose client field is the first matching row as
    [iloc[0].to_dict()] gives it, provided the amount column of the works
    table, if there is one, holds numbers; with a column of texts or of
    dates the totals raise. *)
Theorem generate_invoice_client_lookup (self : InvoiceGenerator) (today : Date)
    (client_id : value) (number date : option string) :
  ((forall col r,
       first_column client_id_columns (clients_df self) = Some col ->
       r ∈ rows (clients_df self) ->
       astype_str (cell (columns (clients_df self)) col r)
       <> Some (py_str client_id)) ->
   generate_invoice self today client_id number date = Ok None)
  /\
  (forall col before r after,
      first_column client_id_columns (clients_df self) = Some col ->
      rows (clients_df self) = (before ++ r :: after)%list ->
      astype_str (cell (columns (clients_df self)) col r)
      = Some (py_str client_id) ->
      (forall r', r' ∈ before ->
         astype_str (cell (columns (clients_df self)) col r')
         <> Some (py_str client_id)) ->
      numeric_amounts (get_client_works self client_id) = true ->
      exists inv,
        generate_invoice self today client_id number date = Ok (Some inv)
        /\ client_data inv = iloc_to_dict (clients_df self) r).
Proof.
  split.
  - intros Habs. unfold generate_invoice.
    by rewrite (get_client_data_absent self client_id Habs).
  - intros col before r after Hcol Hrows Hr Hbefore Hnum.
    pose proof (get_client_data_present self client_id col before after r
                  Hcol Hrows Hr Hbefore) as Hclient.
    destruct (generate_invoice_of_client self today client_id number date _
                Hclient Hnum) as (inv & Hinv & Hc & _).
    exists inv. by split.
Qed.

(** The script's own data: no client 999; client 12345 is the first row. *)
Lemma generate_invoice_client_lookup_demo :
  generate_invoice Samples.demo Samples.today (VInt 999) None None = Ok None
  /\ exists inv,
       generate_invoice Samples.demo Samples.today (VInt 12345) None None
       = Ok (Some inv)
       /\ client_data inv
          = to_dict ["id"; "name"; "address"; "zip_code"]
              [VInt 12345; VStr "ABC Corporation"; VStr "123 Main St";
               VInt 10001].
Proof.
  split.
  - apply (proj1 (generate_invoice_client_lookup
                    Samples.demo Samples.today (VInt 999) None None)).
    intros col r Hcol Hr. vm_compute in Hcol. injection Hcol as <-.
    vm_compute in Hr. repeat (apply elem_of_cons in Hr as [->|Hr]);
      [vm_compute; discriminate ..|by apply elem_of_nil in Hr].
  - apply (proj2 (generate_invoice_client_lookup
                    Samples.demo Samples.today (VInt 12345) None None)
             "id" [] _ (skipn 1 (rows Samples.demo_clients)));
      [reflexivity | reflexivity | reflexivity | | reflexivity].
    intros r' Hr'. by apply elem_of_nil in Hr'.
Defined.

(** C2 as stated fails: client 1 is in the client table, its one work
    item has the amount "12,50", a text, and [generate_invoice] raises
    instead of returning an invoice. *)
Lemma generate_invoice_text_amount_raises :
  get_client_data Samples.comma (VInt 1)
  = Some (to_dict ["id"; "name"] [VInt 1; VStr "Acme"])
  /\ generate_invoice Samples.comma Samples.today (VInt 1) None None
     = Raise (TypeError "can't multiply sequence by non-int of type 'float'").
Proof. split; vm_compute; reflexivity. Qed.

(** A client file of numbers only: the identifier 1 is found by its text
    and comes back in the record as the double 1.0. *)
Example get_client_data_balance :
  get_client_data Samples.balance (VInt 1)
  = Some (to_dict ["id"; "balance"] [VFloat 1; VFloat 250.5]).
Proof. vm_compute. reflexivity. Qed.

(** A missing identifier has no text: the query nan does not find the
    client without an identifier, and the query 2.0 finds the other. *)
Example get_client_data_missing_id :
  get_client_data Samples.missing_id (VFloat PrimFloat.nan) = None
  /\ get_client_data Samples.missing_id (VStr "nan") = None
  /\ get_client_data Samples.missing_id (VFloat 2)
     = Some (to_dict ["id"; "name"] [VFloat 2; VStr "Initech"]).
Proof. repeat split; vm_compute; reflexivity. Qed.

(** ** The two matching rules *)

(** C3.  [get_client_data] keeps the rows whose identifier, as a text,
    equals the query as a text, so the integer [n] finds the client stored
    as the text of [n]; [get_client_works] keeps the rows whose client
    reference equals the query with [==], under which a text never equals
    a number.  So there is a generator and a query for which the client is
    found and the work items selected are none, where matching as text
    would select some. *)
Theorem client_and_works_lookups_differ :
  (forall self client_id,
      get_client_data self client_id
      = match first_column client_id_columns (clients_df self) with
        | Some col =>
            iloc_to_dict (clients_df self)
              <$> head (List.filter
                          (fun r =>
                             match astype_str
                                     (cell (columns (clients_df self)) col r) with
                             | Some s => String.eqb s (py_str client_id)
                             | None => false
                             end)
                          (rows (clients_df self)))
        | None => None
        end)
  /\ (forall self client_id,
         rows (get_client_works self client_id)
         = match first_column works_id_columns (works_df self) with
           | Some col =>
               List.filter
                 (fun r => py_eq (cell (columns (works_df self)) col r) client_id)
                 (rows (works_df self))
           | None => []
           end)
  /\ (forall n : Z,
         py_str (VStr (pretty n)) = py_str (VInt n)
         /\ astype_str (VStr (pretty n)) = Some (py_str (VInt n))
         /\ py_eq (VStr (pretty n)) (VInt n) = false)
  /\ (exists self client_id client,
         get_client_data self client_id = Some client
         /\ rows (get_client_works self client_id) = []
         /\ rows (works_matching_as_text self client_id) <> []).
Proof.
  split; [|split; [|split]].
  - intros self client_id.
    destruct (first_column client_id_columns (clients_df self)) as [col|] eqn:Hcol.
    + by apply get_client_data_first_match.
    + unfold get_client_data. by rewrite Hcol.
  - intros self client_id. unfold get_client_works.
    by destruct (first_column works_id_columns (works_df self)).
  - intros n. repeat split; reflexivity.
  - exists Samples.acme, (VInt 1), (to_dict ["id"; "name"] [VStr "1"; VStr "Acme"]).
    split; [vm_compute; reflexivity|].
    split; [vm_compute; reflexivity|].
    vm_compute. discriminate.
Qed.

(** ** Invoices without work items *)

Lemma int_sum_nil : int_sum [] = 0%Z.
Proof. reflexivity. Qed.

(** With no row, an amount column of numbers and a finite rate, the three
    totals are zero. *)
Lemma calculate_invoice_totals_no_rows (self : InvoiceGenerator)
    (works : DataFrame) :
  rows works = [] ->
  numeric_amounts works = true ->
  PrimFloat.is_finite (tax_rate self) = true ->
  exists t,
    calculate_invoice_totals self works = Ok t
    /\ number_is_zero (subtotal t) = true
    /\ number_is_zero (tax t) = true
    /\ number_is_zero (total t) = true.
Proof.
  intros Hrows Hnum Hfin. unfold numeric_amounts in Hnum.
  destruct (zero_at_rate _ Hfin) as [Htax Htotal].
  destruct (first_column amount_columns works) as [col|] eqn:Hcol.
  - assert (Hcells : cells (series works col) = []).
    { unfold series. cbn [cells]. by rewrite Hrows. }
    destruct (column_dtype works col) eqn:Hdtype; try discriminate.
    + rewrite (calculate_invoice_totals_ints self works col Hcol Hdtype).
      rewrite Hcells. eexists. split; [reflexivity|].
      cbn [subtotal tax total number_is_zero]. rewrite int_sum_nil.
      by repeat split.
    + rewrite (calculate_invoice_totals_floats self works col Hcol Hdtype).
      rewrite Hcells. eexists. split; [reflexivity|].
      cbn [subtotal tax total number_is_zero].
      change (float_total (host self) []) with 0%float.
      by repeat split.
  - unfold calculate_invoice_totals. rewrite Hcol. eexists.
    split; [reflexivity|]. by repeat split.
Qed.

(** C4, as the code has it.  For a client that is in the client table and
    has no matching work item, [generate_invoice] returns an invoice with
    no line item and with subtotal, tax and total all zero, provided the
    amount column of the works table, if there is one, holds numbers, and
    the tax rate is a finite number; with a column of texts the sum of no
    row is the empty text and the totals raise. *)
Theorem generate_invoice_without_works (self : InvoiceGenerator) (today : Date)
    (client_id : value) (number date : option string) (client : dict) :
  get_client_data self client_id = Some client ->
  rows (get_client_works self client_id) = [] ->
  numeric_amounts (get_client_works self client_id) = true ->
  PrimFloat.is_finite (tax_rate self) = true ->
  exists inv,
    generate_invoice self today client_id number date = Ok (Some inv)
    /\ client_data inv = client
    /\ works inv = []
    /\ number_is_zero (inv_subtotal inv) = true
    /\ number_is_zero (tax_amount inv) = true
    /\ number_is_zero (total_amount inv) = true.
Proof.
  intros Hclient Hrows Hnum Hfin. unfold generate_invoice. rewrite Hclient.
  destruct (calculate_invoice_totals_no_rows self _ Hrows Hnum Hfin)
    as (t & -> & Hs & Ht & Hu).
  cbn [mbind res_bind]. eexists. split; [reflexivity|].
  cbn [client_data works inv_subtotal tax_amount total_amount].
  unfold to_records. rewrite Hrows. auto.
Qed.

(** Client "1" with a works table that only names client "2". *)
Lemma generate_invoice_without_works_sample :
  exists inv,
    generate_invoice Samples.no_works Samples.today (VStr "1") None None
    = Ok (Some inv)
    /\ client_data inv = to_dict ["id"; "name"] [VStr "1"; VStr "Acme"]
    /\ works inv = []
    /\ number_is_zero (inv_subtotal inv) = true
    /\ number_is_zero (tax_amount inv) = true
    /\ number_is_zero (total_amount inv) = true.
Proof.
  exact (generate_invoice_without_works
           Samples.no_works Samples.today (VStr "1") None None _
           eq_refl eq_refl eq_refl eq_refl).
Defined.

(** C4 as stated fails: client 3 is in the client table and has no work
    item; the amounts of the works file are texts, the sum of no text is
    the empty text, and its product with the tax rate raises. *)
Lemma generate_invoice_without_works_of_texts :
  get_client_data Samples.comma_other (VInt 3)
  = Some (to_dict ["id"; "name"] [VInt 3; VStr "Initech"])
  /\ rows (get_client_works Samples.comma_other (VInt 3)) = []
  /\ generate_invoice Samples.comma_other Samples.today (VInt 3) None None
     = Raise (TypeError "can't multiply sequence by non-int of type 'float'").
Proof. repeat split; vm_compute; reflexivity. Qed.

(** ** The amount column *)

Lemma first_column_same_columns (cands : list string) (df df' : DataFrame) :
  columns df' = columns df -> first_column cands df' = first_column cands df.
Proof.
  intros Hcols. unfold first_column, has_column. by rewrite Hcols.
Qed.

(** C5.  When none of the amount candidates is a column of the table,
    [calculate_invoice_totals] returns zero for subtotal, tax and total.
    The column is resolved against the labels of the table: the totals of
    two tables with the same labels and the same cells under the resolved
    label are the same, whatever their rows hold elsewhere. *)
Theorem calculate_invoice_totals_amount_column (self : InvoiceGenerator)
    (works : DataFrame) :
  ((forall col, col ∈ amount_columns -> col ∉ columns works) ->
   calculate_invoice_totals self works = Ok zero_totals)
  /\
  (forall col other,
      first_column amount_columns works = Some col ->
      columns other = columns works ->
      series other col = series works col ->
      calculate_invoice_totals self other = calculate_invoice_totals self works).
Proof.
  split.
  - intros Hnone. apply first_column_None in Hnone.
    unfold calculate_invoice_totals. by rewrite Hnone.
  - intros col other Hcol Hcols Hseries. unfold calculate_invoice_totals.
    rewrite (first_column_same_columns _ works other Hcols), Hcol.
    by rewrite Hseries.
Qed.

(** A table of hours has no amount; and of the labels "Amount" and
    "amount", the candidate "amount" is the column summed, for every row. *)
Lemma calculate_invoice_totals_amount_column_sample :
  calculate_invoice_totals Samples.demo Samples.hours_works = Ok zero_totals
  /\ calculate_invoice_totals Samples.demo Samples.two_amounts_other
     = calculate_invoice_totals Samples.demo Samples.two_amounts_works.
Proof.
  split.
  - apply (proj1 (calculate_invoice_totals_amount_column
                    Samples.demo Samples.hours_works)).
    intros col Hcol Hin. vm_compute in Hin.
    repeat (apply elem_of_cons in Hin as [->|Hin]);
      try (by apply elem_of_nil in Hin);
      repeat (apply elem_of_cons in Hcol as [Hcol|Hcol]; [discriminate Hcol|]);
      by apply elem_of_nil in Hcol.
  - exact (proj2 (calculate_invoice_totals_amount_column
                    Samples.demo Samples.two_amounts_works)
             "amount" Samples.two_amounts_other eq_refl eq_refl eq_refl).
Defined.

(** The column is not chosen row by row: the first row has no "amount"
    but an "Amount" of 5, and the subtotal is that of "amount" alone. *)
Example calculate_invoice_totals_two_amounts :
  calculate_invoice_totals Samples.demo Samples.two_amounts_works
  = Ok {| subtotal := NFloat 2; tax := NFloat 0.42; total := NFloat 2.42 |}.
Proof. vm_compute. reflexivity. Qed.

(** ** Missing files *)

Lemma first_column_empty_frame (cands : list string) :
  first_column cands empty_frame = None.
Proof. apply first_column_None. intros col _ Hin. by apply elem_of_nil in Hin. Qed.

Lemma get_client_data_empty_frame (self : InvoiceGenerator) (client_id : value) :
  clients_df self = empty_frame -> get_client_data self client_id = None.
Proof.
  intros Hdf. unfold get_client_data. by rewrite Hdf, first_column_empty_frame.
Qed.

Lemma get_client_works_empty_frame (self : InvoiceGenerator) (client_id : value) :
  works_df self = empty_frame -> get_client_works self client_id = empty_frame.
Proof.
  intros Hdf. unfold get_client_works. by rewrite Hdf, first_column_empty_frame.
Qed.

Lemma calculate_invoice_totals_empty_frame (self : InvoiceGenerator) :
  calculate_invoice_totals self empty_frame = Ok zero_totals.
Proof.
  unfold calculate_invoice_totals. by rewrite first_column_empty_frame.
Qed.

(** C6.  A loader whose file is absent returns the empty table.  A
    generator built without the client file finds no client, so
    [generate_invoice] returns [None]; a generator built without the works
    file selects the empty table for every client, so [generate_invoice]
    returns, and what it returns for a client it finds is an invoice with
    no line item and zero totals. *)
Theorem absent_files_degrade (host : Host) (clients_path works_path : string)
    (rate : float) (today : Date) (client_id : value)
    (number date : option string) :
  let self := new_generator host clients_path works_path rate in
  (read_csv host clients_path = FileNotFound ->
   load_clients_data host clients_path = empty_frame
   /\ get_client_data self client_id = None
   /\ generate_invoice self today client_id number date = Ok None)
  /\
  (read_csv host works_path = FileNotFound ->
   load_works_data host works_path = empty_frame
   /\ get_client_works self client_id = empty_frame
   /\ calculate_invoice_totals self (get_client_works self client_id)
      = Ok zero_totals
   /\ exists r,
        generate_invoice self today client_id number date = Ok r
        /\ forall inv, r = Some inv ->
             works inv = []
             /\ inv_subtotal inv = NInt 0 /\ tax_amount inv = NInt 0
             /\ total_amount inv = NInt 0).
Proof.
  intros self. split.
  - intros Hfile.
    assert (Hload : load_clients_data host clients_path = empty_frame).
    { unfold load_clients_data. by rewrite Hfile. }
    assert (Hnone : get_client_data self client_id = None).
    { by apply get_client_data_empty_frame. }
    repeat split; [done..|]. unfold generate_invoice. by rewrite Hnone.
  - intros Hfile.
    assert (Hload : load_works_data host works_path = empty_frame).
    { unfold load_works_data. by rewrite Hfile. }
    assert (Hworks : get_client_works self client_id = empty_frame).
    { by apply get_client_works_empty_frame. }
    repeat split; [done..| |].
    + rewrite Hworks. apply calculate_invoice_totals_empty_frame.
    + unfold generate_invoice.
      destruct (get_client_data self client_id) as [client|] eqn:Hclient.
      * rewrite Hworks, calculate_invoice_totals_empty_frame.
        cbn [mbind res_bind]. eexists. split; [reflexivity|].
        intros inv [= <-]. by repeat split.
      * exists None. by split.
Qed.

(** With no file at all no invoice is made; with the client file alone,
    client "1" gets an invoice without line items. *)
Lemma absent_files_degrade_sample :
  (load_clients_data Samples.bare_host "clients.csv" = empty_frame
   /\ get_client_data
        (new_generator Samples.bare_host "clients.csv" "works.csv" 0.21)
        (VStr "1") = None
   /\ generate_invoice
        (new_generator Samples.bare_host "clients.csv" "works.csv" 0.21)
        Samples.today (VStr "1") None None = Ok None)
  /\ load_works_data (Samples.clients_only_host Samples.acme_clients) "works.csv"
     = empty_frame.
Proof.
  split.
  - exact (proj1 (absent_files_degrade Samples.bare_host "clients.csv"
                    "works.csv" 0.21 Samples.today (VStr "1") None None)
             eq_refl).
  - exact (proj1 (proj2 (absent_files_degrade
                           (Samples.clients_only_host Samples.acme_clients)
                           "clients.csv" "works.csv" 0.21 Samples.today
                           (VStr "1") None None)
                    eq_refl)).
Defined.

(** ** The date column of the works file *)

(** The works loader leaves the table as read, labels stripped, unless one
    of the labels is "date" in some casing. *)
Lemma load_works_data_without_date_label (host : Host) (path : string)
    (df : DataFrame) :
  read_csv host path = Parsed df ->
  "date" ∉ map PyStr.lower (columns (strip_columns df)) ->
  load_works_data host path = strip_columns df.
Proof.
  intros Hread Hguard. unfold load_works_data. rewrite Hread.
  by rewrite bool_decide_eq_false_2.
Qed.

(** C7 at the failing input.  In a works file whose only date-like column
    is "work_date", the label contains "date" and is found by the search
    for the date column, yet the loader returns the table as read: the
    cells of "work_date" are still texts.  With the label "Date" the cells
    are parsed. *)
Theorem load_works_data_work_date_left_as_text :
  date_like_columns Samples.work_date_works = ["work_date"]
  /\ load_works_data
       (Samples.host_of Samples.acme_clients Samples.work_date_works) "works.csv"
     = Samples.work_date_works
  /\ series Samples.work_date_works "work_date"
     = {| dtype := Text; cells := [VStr "2024-01-15"] |}
  /\ series
       (load_works_data
          (Samples.host_of Samples.acme_clients Samples.date_works) "works.csv")
       "Date"
     = {| dtype := Datetime; cells := [VTimestamp "2024-01-15 00:00:00"] |}.
Proof. repeat split; vm_compute; reflexivity. Qed.

(** ** Column resolution *)

Section Resolution.

(** The record that is resolved. *)
Variable d : dict.

Lemma first_notna_skip (col : string) (cands : list string) :
  unresolved d col -> first_notna d (col :: cands) = first_notna d cands.
Proof.
  intros [H|(v & H & Hv)]; simpl; rewrite H; [reflexivity|]. by rewrite Hv.
Qed.

Lemma first_notna_hit (col : string) (cands : list string)
    (v : value) :
  d !! col = Some v -> notna v = true -> first_notna d (col :: cands) = Some v.
Proof. intros H Hv. simpl. by rewrite H, Hv. Qed.

Lemma first_notna_head (col : string) (cands : list string) :
  unresolved d col
  \/ exists v, d !! col = Some v /\ notna v = true.
Proof.
  unfold unresolved. destruct (d !! col) as [v|]; [|by left; left].
  destruct (notna v) eqn:Hv; [right; eauto|].
  left; right. eauto.
Qed.

Lemma first_notna_Some (cands : list string) (v : value) :
  first_notna d cands = Some v <->
  exists before col after,
    cands = (before ++ col :: after)%list
    /\ d !! col = Some v /\ notna v = true
    /\ forall c, c ∈ before -> unresolved d c.
Proof.
  induction cands as [|c cands IH].
  - split; [discriminate|].
    intros (before & col & after & Heq & _). by destruct before.
  - destruct (first_notna_head c cands) as [Hc|(w & Hw & Hna)].
    + rewrite (first_notna_skip c cands Hc), IH. split.
      * intros (before & col & after & -> & Hv & Hna & Hb).
        exists (c :: before), col, after. repeat split; [done..|].
        intros c' Hc'. apply elem_of_cons in Hc' as [->|Hc']; auto.
      * intros (before & col & after & Heq & Hv & Hna & Hb).
        destruct before as [|c' before]; simpl in Heq.
        -- injection Heq as <- <-. destruct Hc as [Hc|(w & Hc & Hw)].
           ++ congruence.
           ++ congruence.
        -- injection Heq as <- ->. exists before, col, after.
           repeat split; [done..|].
           intros c' Hc'. apply Hb. by apply list_elem_of_further.
    + rewrite (first_notna_hit c cands w Hw Hna). split.
      * intros [= <-]. exists [], c, cands. repeat split; [done..|].
        intros c' Hc'. by apply elem_of_nil in Hc'.
      * intros (before & col & after & Heq & Hv & Hna' & Hb).
        destruct before as [|c' before]; simpl in Heq.
        -- injection Heq as <- <-. congruence.
        -- injection Heq as <- ->.
           destruct (Hb c (list_elem_of_here _ _)) as [Hc|(u & Hc & Hu)];
             congruence.
Qed.

Lemma first_notna_None (cands : list string) :
  first_notna d cands = None <-> forall c, c ∈ cands -> unresolved d c.
Proof.
  induction cands as [|c cands IH].
  - split; [|done]. intros _ c Hc. by apply elem_of_nil in Hc.
  - destruct (first_notna_head c cands) as [Hc|(w & Hw & Hna)].
    + rewrite (first_notna_skip c cands Hc), IH. split.
      * intros H c' Hc'. apply elem_of_cons in Hc' as [->|Hc']; auto.
      * intros H c' Hc'. apply H. by apply list_elem_of_further.
    + rewrite (first_notna_hit c cands w Hw Hna). split; [discriminate|].
      intros H. destruct (H c (list_elem_of_here _ _)) as [Hc|(u & Hc & Hu)];
        congruence.
Qed.

End Resolution.

Lemma first_column_first (cands : list string) (df : DataFrame) (col : string) :
  first_column cands df = Some col <->
  exists before after,
    cands = (before ++ col :: after)%list
    /\ col ∈ columns df
    /\ forall c, c ∈ before -> c ∉ columns df.
Proof.
  unfold first_column, has_column. induction cands as [|c cands IH]; simpl.
  - split; [discriminate|]. intros (before & after & Heq & _).
    by destruct before.
  - destruct (decide (c ∈ columns df)) as [Hc|Hc].
    + rewrite bool_decide_eq_true_2 by done. split.
      * intros [= <-]. exists [], cands. repeat split; [done|].
        intros c' Hc'. by apply elem_of_nil in Hc'.
      * intros (before & after & Heq & Hin & Hb).
        destruct before as [|c' before]; simpl in Heq.
        -- by injection Heq as <- <-.
        -- injection Heq as <- ->. by destruct (Hb c (list_elem_of_here _ _)).
    + rewrite bool_decide_eq_false_2 by done. rewrite IH. split.
      * intros (before & after & -> & Hin & Hb).
        exists (c :: before), after. repeat split; [done|].
        intros c' Hc'. apply elem_of_cons in Hc' as [->|Hc']; auto.
      * intros (before & after & Heq & Hin & Hb).
        destruct before as [|c' before]; simpl in Heq.
        -- by injection Heq as <- <-.
        -- injection Heq as <- ->. exists before, after.
           repeat split; [done|].
           intros c' Hc'. apply Hb. by apply list_elem_of_further.
Qed.


(** C8.  Resolving a field of a record against an ordered list of
    candidate labels gives the cell under the first candidate, in list
    order, that the record has with a value, and nothing when there is no
    such candidate.  For a record with a value under both "amount" and
    "Amount", the one that comes first in the list is the result; the
    renderers list "amount" first.  Resolving the amount column of a table
    gives the first candidate, in list order, that is a label of the
    table. *)
Theorem column_resolution_respects_order :
  (forall (d : dict) (cands : list string) (v : value),
      first_notna d cands = Some v <->
      exists before col after,
        cands = (before ++ col :: after)%list
        /\ d !! col = Some v /\ notna v = true
        /\ forall c, c ∈ before -> unresolved d c)
  /\ (forall (d : dict) (cands : list string),
         first_notna d cands = None <-> forall c, c ∈ cands -> unresolved d c)
  /\ (forall (d : dict) (a b : value) (before mid after : list string),
         d !! "amount" = Some a -> notna a = true ->
         d !! "Amount" = Some b -> notna b = true ->
         (forall c, c ∈ before -> unresolved d c) ->
         first_notna d (before ++ "amount" :: mid ++ "Amount" :: after)%list
         = Some a
         /\ first_notna d (before ++ "Amount" :: mid ++ "amount" :: after)%list
            = Some b
         /\ work_amount d = a)
  /\ (forall (cands : list string) (df : DataFrame) (col : string),
         first_column cands df = Some col <->
         exists before after,
           cands = (before ++ col :: after)%list
           /\ col ∈ columns df
           /\ forall c, c ∈ before -> c ∉ columns df).
Proof.
  split; [exact first_notna_Some|].
  split; [exact first_notna_None|].
  split; [|exact first_column_first].
  intros d a b before mid after Ha Hna Hb Hnb Hbefore.
  split; [|split].
  - apply first_notna_Some. by exists before, "amount", (mid ++ "Amount" :: after)%list.
  - apply first_notna_Some. by exists before, "Amount", (mid ++ "amount" :: after)%list.
  - unfold work_amount, amount_columns.
    by rewrite (first_notna_hit d "amount" _ a Ha Hna).
Qed.

(** A record with "Amount" 5 and "amount" 7. *)
Lemma column_resolution_both_amounts :
  first_notna Samples.both_amounts ["amount"; "Amount"] = Some (VFloat 7)
  /\ first_notna Samples.both_amounts ["Amount"; "amount"] = Some (VFloat 5)
  /\ work_amount Samples.both_amounts = VFloat 7.
Proof.
  apply (proj1 (proj2 (proj2 column_resolution_respects_order))
           Samples.both_amounts (VFloat 7) (VFloat 5) [] [] []);
    [reflexivity..|].
  intros c Hc. by apply elem_of_nil in Hc.
Defined.

(** ** The text renderer *)

Lemma appends_print (line : string) : appends (print line).
Proof. intros out. reflexivity. Qed.

Lemma appends_mret {A} (a : A) : appends (mret a : Out A).
Proof. intros out. unfold mret, out_ret. simpl. by rewrite app_nil_r. Qed.

Lemma appends_lift_res {A} (r : res A) : appends (lift_res r).
Proof. intros out. unfold lift_res. simpl. by rewrite app_nil_r. Qed.

Lemma appends_bind {A B} (m : Out A) (k : A -> Out B) :
  appends m -> (forall a, appends (k a)) -> appends (m ≫= k).
Proof.
  intros Hm Hk out. unfold mbind, out_bind.
  rewrite (Hm out). destruct (m []) as [text [a|e]]; simpl.
  - rewrite (Hk a (out ++ text)%list), (Hk a text). simpl.
    by rewrite app_assoc.
  - reflexivity.
Qed.

Lemma appends_for_each {A} (body : A -> Out unit) (l : list A) :
  (forall x, appends (body x)) -> appends (for_each body l).
Proof.
  intros Hbody. induction l as [|x l IH]; simpl.
  - apply appends_mret.
  - apply appends_bind; [apply Hbody|]. intros _. exact IH.
Qed.

Lemma appends_print_work (work : dict) : appends (print_work work).
Proof.
  unfold print_work. apply appends_bind; [apply appends_lift_res|].
  intros a. apply appends_print.
Qed.

Lemma appends_optional_line (o : option value) :
  appends (match o with
           | Some v => print ("  " ++ py_str v)
           | None => mret tt
           end).
Proof. destruct o; [apply appends_print|apply appends_mret]. Qed.

Lemma appends_print_invoice (self : InvoiceGenerator) (invoice : option Invoice) :
  appends (print_invoice self invoice).
Proof.
  destruct invoice as [invoice|]; simpl; [|apply appends_print].
  repeat (apply appends_bind; [|intros _]);
    first [ apply appends_print
          | apply appends_optional_line
          | apply appends_for_each; apply appends_print_work ].
Qed.

(** C9.  The text that [print_invoice] prints, and whether it returns or
    raises, depend on the invoice alone: on any two generators and any two
    streams, rendering the same invoice appends the same lines. *)
Theorem print_invoice_deterministic (self self' : InvoiceGenerator)
    (invoice : option Invoice) (out out' : list string) :
  exists (text : list string) (r : res unit),
    print_invoice self invoice out = ((out ++ text)%list, r)
    /\ print_invoice self' invoice out' = ((out' ++ text)%list, r).
Proof.
  exists (print_invoice self invoice []).1, (print_invoice self invoice []).2.
  split; [apply appends_print_invoice|].
  change (print_invoice self invoice) with (print_invoice self' invoice).
  apply appends_print_invoice.
Qed.

(** ** Renderers without an invoice *)

(** C10.  Given [None] for the invoice, [print_invoice] prints its notice
    and returns, and [save_invoice_to_file] and [save_invoice_to_pdf] say
    theirs on the console and return: no exception, and the files are the
    ones there were. *)
Theorem renderers_accept_no_invoice (self : InvoiceGenerator)
    (filename : option string) (w : World) (out : list string) :
  print_invoice self None out = ((out ++ ["No invoice to print"])%list, Ok tt)
  /\ save_invoice_to_file self None filename w = say "No invoice to save" w
  /\ save_invoice_to_pdf self None filename w = say "No invoice to save" w
  /\ disk (save_invoice_to_file self None filename w) = disk w
  /\ disk (save_invoice_to_pdf self None filename w) = disk w.
Proof. repeat split. Qed.


(** ** The script's own run *)

(** The invoice of client 12345 of the sample files, as the console shows
    it. *)
Example print_invoice_demo :
  generate_invoice Samples.demo Samples.today (VInt 12345) None None
  = Ok Samples.demo_invoice
  /\ print_invoice Samples.demo Samples.demo_invoice []
     = ([ "============================================================";
          "INVOICE #INV-20240203-12345";
          "============================================================";
          "Date: 2024-02-03";
          "";
          "BILL TO:";
          "  ABC Corporation";
          "  123 Main St";
          "  10001";
          "";
          "SERVICES:";
          "------------------------------------------------------------";
          "Description                    Date         Amount    ";
          "------------------------------------------------------------";
          "Web Development                2024-01-15   $1500.00  ";
          "Database Setup                 2024-01-20   $800.00   ";
          "Bug Fixes                      2024-01-25   $400.00   ";
          "------------------------------------------------------------";
          "Subtotal:                                              $ 2700.00";
          "Tax (21.0%):                                           $  567.00";
          "============================================================";
          "TOTAL:                                                 $ 3267.00";
          "============================================================" ],
        Ok tt).
Proof. split; vm_compute; reflexivity. Qed.

(** With an invoice the savers do write: each creates its file under the
    default name. *)
Example savers_write_demo :
  disk (save_invoice_to_file Samples.demo Samples.demo_invoice None
          Samples.blank_world)
    !! "invoice_INV-20240203-12345.txt"
  = Some (TextFile (print_invoice Samples.demo Samples.demo_invoice []).1)
  /\ is_Some (disk (save_invoice_to_pdf Samples.demo Samples.demo_invoice None
                      Samples.blank_world)
                !! "invoice_INV-20240203-12345.pdf").
Proof.
  split; [vm_compute; reflexivity|].
  vm_compute. eexists. reflexivity.
Qed.


(** * Further properties *)

(** ** Rows as records *)

Lemma to_dict_lookup (cols : list string) (r : list value) (c : string) :
  to_dict cols r !! c = index_of c cols ≫= fun i => r !! i.
Proof.
  unfold to_dict. revert r. induction cols as [|c0 cols IH]; intros r.
  - reflexivity.
  - destruct r as [|v r]; simpl.
    + rewrite lookup_empty.
      destruct (String.eqb c c0); [reflexivity|].
      by destruct (index_of c cols).
    + destruct (String.eqb_spec c c0) as [->|Hne].
      * by rewrite lookup_insert_eq.
      * rewrite lookup_insert_ne by congruence. rewrite IH.
        by destruct (index_of c cols).
Qed.



Lemma index_of_lt (cols : list string) (c : string) (i : nat) :
  index_of c cols = Some i -> (i < length cols)%nat.
Proof.
  revert i. induction cols as [|c0 cols IH]; intros i; simpl; [discriminate|].
  destruct (String.eqb c c0).
  - intros [= <-]. lia.
  - destruct (index_of c cols) as [j|]; simpl; [|discriminate].
    intros [= <-]. specialize (IH j eq_refl). lia.
Qed.

Lemma index_of_elem (cols : list string) (c : string) :
  c ∈ cols -> is_Some (index_of c cols).
Proof.
  induction cols as [|c0 cols IH]; intros Hc; [by apply elem_of_nil in Hc|].
  simpl. destruct (String.eqb_spec c c0) as [->|Hne]; [eauto|].
  apply elem_of_cons in Hc as [Hc|Hc]; [done|].
  destruct (IH Hc) as [i Hi]. rewrite Hi. simpl. eauto.
Qed.

(** In a row with a cell for every label, the record holds under a label
    of the table the cell that the table has there. *)
Lemma to_dict_lookup_label (cols : list string) (r : list value) (c : string) :
  length r = length cols -> c ∈ cols ->
  to_dict cols r !! c = Some (cell cols c r).
Proof.
  intros Hlen Hc. rewrite to_dict_lookup. unfold cell.
  destruct (index_of_elem cols c Hc) as [i Hi]. rewrite Hi. simpl.
  apply index_of_lt in Hi. rewrite <- Hlen in Hi.
  destruct (lookup_lt_is_Some_2 r i Hi) as [v Hv]. by rewrite Hv.
Qed.

Lemma head_filter_Some {A} (f : A -> bool) (l : list A) (x : A) :
  head (List.filter f l) = Some x -> x ∈ l /\ f x = true.
Proof.
  induction l as [|y l IH]; simpl; [discriminate|].
  destruct (f y) eqn:Hy; simpl.
  - intros [= <-]. split; [apply list_elem_of_here|done].
  - intros H. destruct (IH H) as [Hin Hf]. split; [|done].
    by apply list_elem_of_further.
Qed.

Lemma length_iloc (df : DataFrame) (r : list value) :
  length (iloc df r) = length r.
Proof. unfold iloc. destruct (upcasts df); [apply length_map|reflexivity]. Qed.

Lemma astype_str_Some (v : value) (s : string) :
  astype_str v = Some s -> notna v = true /\ py_str v = s.
Proof.
  unfold astype_str. destruct (notna v); [|discriminate].
  intros [= <-]. by split.
Qed.

(** X2.  In a client table with a cell for every label, the record that
    [get_client_data] returns is the one of a row of the table whose
    identifier, as a text, is the text of the query; it holds every cell
    of the row, the integers as doubles when the table holds numbers only
    and doubles among them.  In any other table the record holds the
    cells as they are, and what it holds under the identifier label reads
    as the query. *)
Theorem get_client_data_returns_matching_row (self : InvoiceGenerator)
    (client_id : value) (client : dict) :
  well_formed (clients_df self) ->
  get_client_data self client_id = Some client ->
  exists col r,
    first_column client_id_columns (clients_df self) = Some col
    /\ r ∈ rows (clients_df self)
    /\ astype_str (cell (columns (clients_df self)) col r)
       = Some (py_str client_id)
    /\ client
       = to_dict (columns (clients_df self))
           (if upcasts (clients_df self) then map upcast r else r)
    /\ client !! col
       = Some (cell (columns (clients_df self)) col
                 (if upcasts (clients_df self) then map upcast r else r))
    /\ (upcasts (clients_df self) = false ->
        exists v, client !! col = Some v /\ py_str v = py_str client_id).
Proof.
  intros Hwf Hget.
  destruct (first_column client_id_columns (clients_df self)) as [col|] eqn:Hcol.
  - rewrite (get_client_data_first_match self client_id col Hcol) in Hget.
    destruct (head _) as [r|] eqn:Hhead; [|discriminate].
    injection Hget as <-. apply head_filter_Some in Hhead as [Hin Hkey].
    apply client_mask_true in Hkey.
    assert (Hlabel : iloc_to_dict (clients_df self) r !! col
                     = Some (cell (columns (clients_df self)) col
                               (iloc (clients_df self) r))).
    { apply to_dict_lookup_label.
      - rewrite length_iloc. unfold well_formed in Hwf.
        rewrite Forall_forall in Hwf. by apply Hwf.
      - by apply first_column_Some in Hcol as [_ ?]. }
    exists col, r. repeat split; try done.
    intros Hup. rewrite Hlabel. unfold iloc. rewrite Hup.
    eexists. split; [reflexivity|]. by apply astype_str_Some in Hkey as [_ ?].
  - unfold get_client_data in Hget. by rewrite Hcol in Hget.
Qed.

(** The text "12345" finds the client stored as the number 12345. *)
Lemma get_client_data_returns_matching_row_demo :
  exists col r,
    first_column client_id_columns (clients_df Samples.demo) = Some col
    /\ r ∈ rows (clients_df Samples.demo)
    /\ astype_str (cell (columns (clients_df Samples.demo)) col r)
       = Some (py_str (VStr "12345"))
    /\ to_dict ["id"; "name"; "address"; "zip_code"]
         [VInt 12345; VStr "ABC Corporation"; VStr "123 Main St"; VInt 10001]
       = to_dict (columns (clients_df Samples.demo))
           (if upcasts (clients_df Samples.demo) then map upcast r else r)
    /\ to_dict ["id"; "name"; "address"; "zip_code"]
         [VInt 12345; VStr "ABC Corporation"; VStr "123 Main St"; VInt 10001]
       !! col
       = Some (cell (columns (clients_df Samples.demo)) col
                 (if upcasts (clients_df Samples.demo) then map upcast r else r))
    /\ (upcasts (clients_df Samples.demo) = false ->
        exists v,
          to_dict ["id"; "name"; "address"; "zip_code"]
            [VInt 12345; VStr "ABC Corporation"; VStr "123 Main St"; VInt 10001]
          !! col = Some v
          /\ py_str v = py_str (VStr "12345")).
Proof.
  apply (get_client_data_returns_matching_row Samples.demo (VStr "12345")).
  - vm_compute. repeat constructor.
  - vm_compute. reflexivity.
Defined.

(** ** The lines of an invoice and its subtotal *)





(** ** When the renderers raise *)

Lemma format_2f_outcome (spec : string) (pad : string -> string) (v : value) :
  match v with
  | VStr _ =>
      format_2f spec pad v
      = Raise (ValueError "Unknown format code 'f' for object of type 'str'")
  | _ => exists s, format_2f spec pad v = Ok s
  end.
Proof. destruct v; simpl; eauto. Qed.

Lemma print_work_outcome (work : dict) (out : list string) :
  (print_work work out).2 = Ok tt <-> text_amount work = false.
Proof.
  unfold print_work, text_amount, mbind, out_bind, lift_res, print.
  pose proof (format_2f_outcome "<9.2f" (PyStr.ljust 9) (work_amount work)) as H.
  destruct (work_amount work); try (destruct H as [s ->]; simpl; done).
  rewrite H. simpl. split; discriminate.
Qed.

Lemma for_each_print_work_outcome (ws : list dict) (out : list string) :
  (for_each print_work ws out).2 = Ok tt <-> existsb text_amount ws = false.
Proof.
  revert out. induction ws as [|work ws IH]; intros out; simpl; [done|].
  unfold mbind, out_bind.
  pose proof (print_work_outcome work out) as Hw.
  destruct (print_work work out) as [out' [[]|e]]; simpl in *.
  - rewrite (proj1 Hw eq_refl). simpl. apply IH.
  - destruct (text_amount work); simpl; [split; discriminate|].
    pose proof (proj2 Hw eq_refl). discriminate.
Qed.

Lemma pdf_work_row_outcome (work : dict) :
  if text_amount work
  then exists e, pdf_work_row work = Raise e
  else exists a b c, pdf_work_row work = Ok [a; b; c].
Proof.
  unfold pdf_work_row, text_amount, mbind, res_bind.
  pose proof (format_2f_outcome ".2f" id (work_amount work)) as H.
  destruct (work_amount work); try (destruct H as [s ->]; eauto).
  rewrite H. eauto.
Qed.

Lemma mapM_pdf_work_row_ok (ws : list dict) (rows : list (list string)) :
  mapM pdf_work_row ws = Ok rows ->
  existsb text_amount ws = false
  /\ length rows = length ws
  /\ Forall (fun row => length row = 3%nat) rows.
Proof.
  revert rows. induction ws as [|work ws IH]; intros rows; simpl.
  - intros [= <-]. by repeat split.
  - pose proof (pdf_work_row_outcome work) as Hw.
    destruct (text_amount work); simpl.
    + destruct Hw as [e ->]. discriminate.
    + destruct Hw as (a & b & c & ->). unfold mbind at 1. unfold res_bind at 1.
      destruct (mapM pdf_work_row ws) as [rs|e]; simpl; [|discriminate].
      intros [= <-]. destruct (IH rs eq_refl) as (Hno & Hlen & Hall).
      repeat split; [done|simpl; lia|]. by apply Forall_cons.
Qed.

Lemma mapM_pdf_work_row_raise (ws : list dict) :
  existsb text_amount ws = true -> exists e, mapM pdf_work_row ws = Raise e.
Proof.
  induction ws as [|work ws IH]; simpl; [discriminate|].
  pose proof (pdf_work_row_outcome work) as Hw.
  destruct (text_amount work); simpl.
  - destruct Hw as [e ->]. eauto.
  - destruct Hw as (a & b & c & ->). intros H. destruct (IH H) as [e ->]. eauto.
Qed.

Lemma mapM_pdf_work_row_some (ws : list dict) :
  existsb text_amount ws = false -> exists rows, mapM pdf_work_row ws = Ok rows.
Proof.
  induction ws as [|work ws IH]; simpl; [eauto|].
  pose proof (pdf_work_row_outcome work) as Hw.
  destruct (text_amount work); simpl; [discriminate|].
  destruct Hw as (a & b & c & ->). intros H. destruct (IH H) as [rows ->].
  simpl. eauto.
Qed.

Lemma paragraph_outcome (h : Host) (text : string) (style : Style) :
  paragraph h text style
  = match paragraph_error h text with
    | Some msg => Raise (ValueError msg)
    | None => Ok (Paragraph text style)
    end.
Proof. reflexivity. Qed.

(** The paragraphs of the story are made exactly when the host takes
    their texts. *)
Lemma pdf_paragraphs_outcome (h : Host) (inv : Invoice) :
  (exists heading bill_to,
      pdf_heading h inv = Ok heading
      /\ pdf_bill_to h (client_data inv) = Ok bill_to)
  <-> markup_ok h inv = true.
Proof.
  unfold markup_ok, paragraph_texts, pdf_heading, pdf_bill_to,
    optional_paragraph, paragraph.
  destruct (first_notna (client_data inv) address_columns) as [address|];
    destruct (first_notna (client_data inv) zip_columns) as [zip_code|];
    simpl;
    repeat match goal with
           | |- context [paragraph_error h ?t] =>
               destruct (paragraph_error h t) as [?|]; simpl
           end;
    (split; [intros (? & ? & ? & ?); try discriminate; reflexivity
            |intros ?; try discriminate; eauto]).
Qed.

Lemma pdf_story_outcome (self : InvoiceGenerator) (inv : Invoice) :
  (exists story, pdf_story self inv = Ok story)
  <-> markup_ok (host self) inv = true
      /\ existsb text_amount (works inv) = false.
Proof.
  pose proof (pdf_paragraphs_outcome (host self) inv) as Hp.
  unfold pdf_story. split.
  - intros [story Hstory].
    destruct (pdf_heading (host self) inv) as [heading|e]; [|discriminate].
    destruct (pdf_bill_to (host self) (client_data inv)) as [bill_to|e];
      [|discriminate].
    cbn [mbind res_bind] in Hstory.
    destruct (mapM pdf_work_row (works inv)) as [rows|e] eqn:Hrows;
      [|discriminate].
    split; [apply Hp; eauto|].
    by apply mapM_pdf_work_row_ok in Hrows as [? _].
  - intros [Hmark Hno]. destruct (proj2 Hp Hmark) as (heading & bill_to & -> & ->).
    destruct (mapM_pdf_work_row_some _ Hno) as [rows ->].
    cbn [mbind res_bind]. eauto.
Qed.

(** X4.  [print_invoice] returns exactly when no work item of the invoice
    has a text as the amount that the renderers take for it, and raises
    otherwise.  The story of [save_invoice_to_pdf] is built exactly when,
    besides, the host takes as markup every text that goes into a
    paragraph: the number, the date, the name, the address and the zip
    code.  The table of the story has a header row, a row for each work
    item and four closing rows, each of three cells. *)
Theorem renderers_raise_on_text_amounts (self : InvoiceGenerator)
    (inv : Invoice) (out : list string) :
  ((print_invoice self (Some inv) out).2 = Ok tt
   <-> existsb text_amount (works inv) = false)
  /\ ((exists story, pdf_story self inv = Ok story)
      <-> markup_ok (host self) inv = true
          /\ existsb text_amount (works inv) = false)
  /\ (forall story,
         pdf_story self inv = Ok story ->
         exists data,
           Table data ∈ story
           /\ length data = (length (works inv) + 5)%nat
           /\ Forall (fun row => length row = 3%nat) data).
Proof.
  split; [|split].
  - unfold print_invoice, mbind, out_bind, print, mret, out_ret.
    destruct (first_notna (client_data inv) address_columns);
      destruct (first_notna (client_data inv) zip_columns);
      match goal with
      | |- context [for_each print_work (works inv) ?o] =>
          pose proof (for_each_print_work_outcome (works inv) o) as Hfe;
          destruct (for_each print_work (works inv) o) as [o' [[]|e]]
      end; simpl in *; exact Hfe.
  - apply pdf_story_outcome.
  - intros story Hstory. unfold pdf_story in Hstory.
    destruct (pdf_heading (host self) inv) as [heading|e]; [|discriminate].
    destruct (pdf_bill_to (host self) (client_data inv)) as [bill_to|e];
      [|discriminate].
    cbn [mbind res_bind] in Hstory.
    destruct (mapM pdf_work_row (works inv)) as [rows|e] eqn:Hrows;
      [|discriminate].
    cbn [mbind res_bind] in Hstory.
    match type of Hstory with
    | Ok ?built = _ => assert (Hs : story = built) by congruence
    end.
    rewrite Hs. clear Hs Hstory.
    apply mapM_pdf_work_row_ok in Hrows as (_ & Hlen & Hall).
    exists (["Description"; "Date"; "Amount"] :: rows ++ pdf_totals_rows inv)%list.
    split; [|split].
    + rewrite !elem_of_app. right. right.
      do 3 apply list_elem_of_further. apply list_elem_of_here.
    + simpl. rewrite length_app, Hlen. simpl. lia.
    + apply Forall_cons. split; [reflexivity|].
      apply Forall_app. split; [done|]. unfold pdf_totals_rows.
      repeat (apply Forall_cons; split; [reflexivity|]). by apply Forall_nil.
Qed.

(** The script's invoice has three work items: the table has 8 rows. *)
Lemma renderers_raise_on_text_amounts_demo :
  exists inv story data,
    Samples.demo_invoice = Some inv
    /\ pdf_story Samples.demo inv = Ok story
    /\ Table data ∈ story
    /\ length data = (length (works inv) + 5)%nat
    /\ Forall (fun row => length row = 3%nat) data.
Proof.
  destruct Samples.demo_invoice as [inv|] eqn:Hinv; [|by vm_compute in Hinv].
  destruct (proj2 (proj1 (proj2 (renderers_raise_on_text_amounts
                                   Samples.demo inv []))))
    as [story Hstory].
  { vm_compute in Hinv. injection Hinv as <-. split; vm_compute; reflexivity. }
  destruct (proj2 (proj2 (renderers_raise_on_text_amounts Samples.demo inv []))
              story Hstory) as (data & Hdata).
  exists inv, story, data. by repeat split; try apply Hdata.
Defined.

(** A client whose name is "A <b": the amounts are numbers and the text
    renderer returns, the name is no markup, and no PDF file is
    written. *)
Example save_invoice_to_pdf_tag :
  (print_invoice Samples.tag Samples.tag_invoice []).2 = Ok tt
  /\ save_invoice_to_pdf Samples.tag Samples.tag_invoice None
       Samples.blank_world
     = say "Error saving invoice to PDF: paraparser: syntax error: unclosed tag"
         Samples.blank_world.
Proof. split; vm_compute; reflexivity. Qed.

(** ** What the savers write *)

(** X5.  [save_invoice_to_file] says one line on the console, never the
    invoice, and changes no file but the one it is to write.  When that
    file cannot be opened the files stay as they were; when it can, it
    holds afterwards exactly the lines that [print_invoice] prints for
    the invoice, also when [print_invoice] raised on the way. *)
Theorem save_invoice_to_file_effect (self : InvoiceGenerator) (inv : Invoice)
    (filename : option string) (w : World) :
  let path := default ("invoice_" ++ invoice_number inv ++ ".txt") filename in
  let w' := save_invoice_to_file self (Some inv) filename w in
  (exists line, console w' = (console w ++ [line])%list)
  /\ (forall p, p <> path -> disk w' !! p = disk w !! p)
  /\ match open_error w path with
     | Some _ => disk w' = disk w
     | None =>
         exists lines,
           disk w' !! path = Some (TextFile lines)
           /\ forall out,
                (print_invoice self (Some inv) out).1 = (out ++ lines)%list
     end.
Proof.
  intros path w'. subst w'. unfold save_invoice_to_file. fold path.
  destruct (open_error w path) as [msg|] eqn:Hopen.
  - repeat split; eauto.
  - pose proof (appends_print_invoice self (Some inv)) as Happ.
    destruct (print_invoice self (Some inv) []) as [lines [[]|e]] eqn:Hprint;
      cbv beta iota.
    all: split; [simpl; eauto|].
    all: split; [intros p Hp; simpl; by rewrite lookup_insert_ne|].
    all: exists lines; split; [simpl; by rewrite lookup_insert_eq|].
    all: intros out; rewrite (Happ out), Hprint; reflexivity.
Qed.

(** X6.  [save_invoice_to_pdf] says one line on the console and changes no
    file but the one it is to write.  It writes that file only when the
    story is built and the file can be opened; when the host does not
    take a text of the invoice as the markup of a paragraph, or a work
    item has a text for its amount, or the file cannot be opened, the
    files stay as they were. *)
Theorem save_invoice_to_pdf_effect (self : InvoiceGenerator) (inv : Invoice)
    (filename : option string) (w : World) :
  let path := default ("invoice_" ++ invoice_number inv ++ ".pdf") filename in
  let w' := save_invoice_to_pdf self (Some inv) filename w in
  (exists line, console w' = (console w ++ [line])%list)
  /\ (forall p, p <> path -> disk w' !! p = disk w !! p)
  /\ match markup_ok (host self) inv, existsb text_amount (works inv),
           open_error w path with
     | true, false, None =>
         exists story,
           pdf_story self inv = Ok story
           /\ disk w' !! path = Some (PdfFile story)
     | _, _, _ => disk w' = disk w
     end.
Proof.
  intros path w'. subst w'. unfold save_invoice_to_pdf. fold path.
  pose proof (pdf_story_outcome self inv) as Hs.
  destruct (pdf_story self inv) as [story|e] eqn:Hstory.
  - destruct (proj1 Hs (ex_intro _ story eq_refl)) as [-> ->].
    destruct (open_error w path) as [msg|]; simpl.
    + repeat split; eauto.
    + split; [eauto|]. split; [intros p Hp; by rewrite lookup_insert_ne|].
      exists story. split; [done|]. by rewrite lookup_insert_eq.
  - destruct (markup_ok (host self) inv);
      destruct (existsb text_amount (works inv));
      try (repeat split; eauto; fail).
    destruct (proj2 Hs (conj eq_refl eq_refl)) as [story Hok]. discriminate.
Qed.

(** ** The columns of the services table *)

Lemma length_append (s t : string) :
  String.length (s ++ t) = (String.length s + String.length t)%nat.
Proof. induction s as [|a s IH]; simpl; [reflexivity|]. by rewrite IH. Qed.

Lemma length_replicate (n : nat) (c : ascii) :
  String.length (PyStr.replicate n c) = n.
Proof. induction n as [|n IH]; simpl; [reflexivity|]. by rewrite IH. Qed.

Lemma length_take (n : nat) (s : string) :
  (String.length (PyStr.take n s) <= n)%nat.
Proof.
  revert s. induction n as [|n IH]; intros [|a s]; simpl; try lia.
  specialize (IH s). lia.
Qed.

Lemma length_ljust (w : nat) (s : string) :
  (String.length s <= w)%nat -> String.length (PyStr.ljust w s) = w.
Proof.
  intros Hs. unfold PyStr.ljust, PyStr.spaces.
  rewrite length_append, length_replicate. lia.
Qed.

(** X7.  A line of the services table that [print_invoice] prints has the
    description in 30 columns and the date in 12, whatever their length in
    the work item: the amount always starts after "$" at the same
    column. *)
Theorem print_work_fixed_columns (work : dict) (out : list string) :
  text_amount work = false ->
  exists description work_date amount,
    print_work work out
    = ((out ++ [(description ++ " " ++ work_date ++ " $" ++ amount)%string])%list,
       Ok tt)
    /\ String.length description = 30%nat
    /\ String.length work_date = 12%nat.
Proof.
  intros Hamount. unfold print_work, mbind, out_bind, lift_res, print.
  pose proof (format_2f_outcome "<9.2f" (PyStr.ljust 9) (work_amount work)) as H.
  unfold text_amount in Hamount.
  assert (Ha : exists a, format_2f "<9.2f" (PyStr.ljust 9) (work_amount work) = Ok a).
  { by destruct (work_amount work). }
  destruct Ha as [a ->]. eexists _, _, a. split; [reflexivity|]. split.
  - apply length_ljust. destruct (first_notna work desc_columns).
    + pose proof (length_take 28 (py_str v)). lia.
    + simpl. lia.
  - apply length_ljust. destruct (first_notna work date_columns).
    + pose proof (length_take 10 (py_str v)). lia.
    + simpl. lia.
Qed.

(** A description of 40 characters is cut to fit. *)
Lemma print_work_fixed_columns_sample :
  exists description work_date amount,
    print_work
      {[ "description" := VStr "Migration of the accounting database";
         "date" := VTimestamp "2024-01-15 00:00:00";
         "amount" := VFloat 1500 ]} []
    = ([description ++ " " ++ work_date ++ " $" ++ amount], Ok tt)
    /\ String.length description = 30%nat
    /\ String.length work_date = 12%nat.
Proof.
  exact (print_work_fixed_columns
           {[ "description" := VStr "Migration of the accounting database";
              "date" := VTimestamp "2024-01-15 00:00:00";
              "amount" := VFloat 1500 ]} [] eq_refl).
Defined.

(** ** Work items of other clients *)

Lemma filter_app_middle {A} (f : A -> bool) (before after : list A) (x : A) :
  f x = false ->
  List.filter f (before ++ x :: after) = List.filter f (before ++ after).
Proof.
  intros Hx. rewrite !List.filter_app. simpl. by rewrite Hx.
Qed.

(** X8.  A row of the works table whose client reference is not equal to
    the queried id has no part in the invoice: [generate_invoice] gives
    the same result with the row taken out of the table. *)
Theorem generate_invoice_ignores_other_clients (self : InvoiceGenerator)
    (today : Date) (client_id : value) (number date : option string)
    (before after : list (list value)) (r : list value) :
  rows (works_df self) = (before ++ r :: after)%list ->
  (forall col,
      first_column works_id_columns (works_df self) = Some col ->
      py_eq (cell (columns (works_df self)) col r) client_id = false) ->
  generate_invoice self today client_id number date
  = generate_invoice
      (with_works self {| columns := columns (works_df self);
                          dtypes := dtypes (works_df self);
                          rows := (before ++ after)%list |})
      today client_id number date.
Proof.
  intros Hrows Hother.
  assert (Hsel : get_client_works self client_id
                 = get_client_works
                     (with_works self {| columns := columns (works_df self);
                                         dtypes := dtypes (works_df self);
                                         rows := (before ++ after)%list |})
                     client_id).
  { unfold get_client_works. cbn [works_df with_works].
    rewrite (first_column_same_columns works_id_columns (works_df self)
               {| columns := columns (works_df self);
                  dtypes := dtypes (works_df self);
                  rows := (before ++ after)%list |} eq_refl).
    destruct (first_column works_id_columns (works_df self)) as [col|] eqn:Hcol;
      [|reflexivity].
    unfold select. simpl. rewrite Hrows.
    by rewrite (filter_app_middle _ before after r (Hother col eq_refl)). }
  unfold generate_invoice. rewrite <- Hsel. reflexivity.
Qed.

(** The script's invoice of client 12345 without the row of client 67890. *)
Lemma generate_invoice_ignores_other_clients_demo :
  generate_invoice Samples.demo Samples.today (VInt 12345) None None
  = generate_invoice
      (with_works Samples.demo
         {| columns := columns (works_df Samples.demo);
            dtypes := dtypes (works_df Samples.demo);
            rows := (take 2 (rows (works_df Samples.demo))
                       ++ drop 3 (rows (works_df Samples.demo)))%list |})
      Samples.today (VInt 12345) None None.
Proof.
  apply (generate_invoice_ignores_other_clients Samples.demo Samples.today
           (VInt 12345) None None
           (take 2 (rows (works_df Samples.demo)))
           (drop 3 (rows (works_df Samples.demo)))
           [VInt 67890; VTimestamp "2024-01-18 00:00:00"; VStr "Consulting";
            VFloat 300]).
  - vm_compute. reflexivity.
  - intros col Hcol. vm_compute in Hcol. injection Hcol as <-.
    vm_compute. reflexivity.
Defined.

(** ** Parsing the date column *)

Lemma index_of_inj (cols : list string) (c c' : string) (i : nat) :
  index_of c cols = Some i -> index_of c' cols = Some i -> c = c'.
Proof.
  revert i. induction cols as [|c0 cols IH]; intros i; simpl; [discriminate|].
  destruct (String.eqb_spec c c0) as [->|Hc];
    destruct (String.eqb_spec c' c0) as [->|Hc']; try done.
  - destruct (index_of c' cols); simpl; [|discriminate].
    intros [= <-]. discriminate.
  - destruct (index_of c cols); simpl; [|discriminate].
    intros [= <-]. discriminate.
  - destruct (index_of c cols) as [j|] eqn:Hj; simpl; [|discriminate].
    destruct (index_of c' cols) as [j'|] eqn:Hj'; simpl; [|discriminate].
    intros [= <-] [= Heq]. apply (IH j); congruence.
Qed.

Lemma cell_insert_same (cols : list string) (c : string) (i : nat)
    (r : list value) (v : value) :
  index_of c cols = Some i -> (i < length r)%nat ->
  cell cols c (<[i := v]> r) = v.
Proof.
  intros Hi Hlt. unfold cell. rewrite Hi.
  by rewrite list_lookup_insert_eq.
Qed.

Lemma cell_insert_other (cols : list string) (c c' : string) (i : nat)
    (r : list value) (v : value) :
  index_of c cols = Some i -> c' <> c ->
  cell cols c' (<[i := v]> r) = cell cols c' r.
Proof.
  intros Hi Hne. unfold cell.
  destruct (index_of c' cols) as [j|] eqn:Hj; [|reflexivity].
  rewrite list_lookup_insert_ne; [reflexivity|].
  intros <-. apply Hne. by apply (index_of_inj cols c' c i).
Qed.

(** Assigning a column of as many cells as the table has rows. *)
Lemma set_column_series (df : DataFrame) (c : string) (s : Series) :
  well_formed df -> c ∈ columns df -> length (cells s) = length (rows df) ->
  columns (set_column df c s) = columns df
  /\ series (set_column df c s) c = s
  /\ forall c', c' <> c -> series (set_column df c s) c' = series df c'.
Proof.
  intros Hwf Hc Hlen. unfold set_column.
  destruct (index_of_elem _ _ Hc) as [i Hi]. rewrite Hi.
  pose proof (index_of_lt _ _ _ Hi) as Hlt.
  assert (Hcells :
    map (cell (columns df) c)
      (zip_with (fun r v => <[i := v]> r) (rows df) (cells s)) = cells s
    /\ forall c', c' <> c ->
         map (cell (columns df) c')
           (zip_with (fun r v => <[i := v]> r) (rows df) (cells s))
         = map (cell (columns df) c') (rows df)).
  { unfold well_formed in Hwf. destruct s as [d vs]. cbn [cells] in *.
    revert vs Hlen.
    induction Hwf as [|r rs Hr Hrs IH]; intros [|v vs] Hlen;
      simpl in Hlen; try discriminate.
    - by split.
    - destruct (IH vs) as (Hsame & Hother); [lia|]. split.
      + simpl. rewrite Hsame. f_equal. apply cell_insert_same; [done|]. lia.
      + intros c' Hne. simpl. rewrite (Hother c' Hne). f_equal.
        by apply (cell_insert_other _ c). }
  destruct Hcells as [Hsame Hother].
  split; [reflexivity|]. split.
  - unfold series, column_dtype. cbn [columns dtypes rows].
    rewrite Hi, Hsame, Nat.eqb_refl. by destruct s.
  - intros c' Hne. unfold series, column_dtype. cbn [columns dtypes rows].
    rewrite (Hother c' Hne). f_equal.
    destruct (index_of c' (columns df)) as [j|] eqn:Hj; [|reflexivity].
    destruct (Nat.eqb_spec j i) as [->|]; [|reflexivity].
    destruct Hne. by apply (index_of_inj (columns df) c' c i).
Qed.

Lemma date_like_columns_head (df : DataFrame) :
  "date" ∈ map PyStr.lower (columns df) ->
  exists date_col rest,
    date_like_columns df = date_col :: rest /\ date_col ∈ columns df.
Proof.
  intros Hguard. apply list_elem_of_In, in_map_iff in Hguard
    as (col & Hlower & Hin).
  assert (Hlike : In col (date_like_columns df)).
  { unfold date_like_columns. apply filter_In. split; [done|].
    by rewrite Hlower. }
  destruct (date_like_columns df) as [|date_col rest] eqn:Hlist; [done|].
  exists date_col, rest. split; [done|].
  assert (Hd : In date_col (date_like_columns df)) by (rewrite Hlist; by left).
  unfold date_like_columns in Hd. apply filter_In in Hd as [Hd _].
  by apply list_elem_of_In.
Qed.

Lemma strip_columns_well_formed (df : DataFrame) :
  well_formed df -> well_formed (strip_columns df).
Proof.
  unfold well_formed, strip_columns. simpl. by rewrite length_map.
Qed.

(** X9.  When a label of the works file is "date" in some casing, the
    column that [load_works_data] hands to the date parser is the first
    one whose label contains "date", which need not be the one named
    "date".  When the parser returns, the loaded table has the parsed
    cells in that column and every other column as read. *)
Theorem load_works_data_parses_first_date_like (host : Host) (path : string)
    (df : DataFrame) :
  read_csv host path = Parsed df ->
  well_formed df ->
  "date" ∈ map PyStr.lower (columns (strip_columns df)) ->
  exists date_col,
    head (date_like_columns (strip_columns df)) = Some date_col
    /\ forall vs,
         to_datetime host (cells (series (strip_columns df) date_col)) = Ok vs ->
         length vs = length (rows df) ->
         columns (load_works_data host path) = columns (strip_columns df)
         /\ series (load_works_data host path) date_col
            = {| dtype := Datetime; cells := vs |}
         /\ forall c, c <> date_col ->
              series (load_works_data host path) c
              = series (strip_columns df) c.
Proof.
  intros Hread Hwf Hguard.
  destruct (date_like_columns_head _ Hguard) as (date_col & rest & Hlist & Hin).
  exists date_col. rewrite Hlist. split; [reflexivity|].
  intros vs Hparse Hlen. unfold load_works_data.
  rewrite Hread, bool_decide_eq_true_2 by done. rewrite Hlist, Hparse.
  apply set_column_series; [by apply strip_columns_well_formed|done|done].
Qed.

(** With the labels "due_date" and "date", the due dates are parsed and
    the dates of the work are left as texts. *)
Lemma load_works_data_parses_first_date_like_sample :
  exists date_col,
    head (date_like_columns (strip_columns Samples.two_dates_works))
    = Some date_col
    /\ series (load_works_data
                 (Samples.host_of Samples.acme_clients Samples.two_dates_works)
                 "works.csv") "due_date"
       = {| dtype := Datetime; cells := [VTimestamp "2024-02-15 00:00:00"] |}
    /\ series (load_works_data
                 (Samples.host_of Samples.acme_clients Samples.two_dates_works)
                 "works.csv") "date"
       = {| dtype := Text; cells := [VStr "2024-01-15"] |}.
Proof.
  destruct (load_works_data_parses_first_date_like
              (Samples.host_of Samples.acme_clients Samples.two_dates_works)
              "works.csv" Samples.two_dates_works)
    as (date_col & Hhead & Hparsed).
  - reflexivity.
  - repeat constructor.
  - vm_compute. do 2 apply list_elem_of_further. apply list_elem_of_here.
  - exists date_col. split; [exact Hhead|].
    vm_compute in Hhead. injection Hhead as <-.
    destruct (Hparsed [VTimestamp "2024-02-15 00:00:00"] eq_refl eq_refl)
      as (_ & Hdue & Hother).
    split; [exact Hdue|].
    rewrite (Hother "date") by discriminate. reflexivity.
Defined.

(** X10.  When the date parser raises on the column it is handed, the
    loader returns the empty table: the work items are lost with the
    dates, and a generator built on the file selects no work item for any
    client. *)
Theorem load_works_data_drops_table_on_bad_date (host : Host)
    (clients_path works_path : string) (rate : float) (df : DataFrame)
    (date_col : string) (e : exn) (client_id : value) :
  read_csv host works_path = Parsed df ->
  "date" ∈ map PyStr.lower (columns (strip_columns df)) ->
  head (date_like_columns (strip_columns df)) = Some date_col ->
  to_datetime host (cells (series (strip_columns df) date_col)) = Raise e ->
  load_works_data host works_path = empty_frame
  /\ get_client_works (new_generator host clients_path works_path rate) client_id
     = empty_frame.
Proof.
  intros Hread Hguard Hhead Hparse.
  assert (Hload : load_works_data host works_path = empty_frame).
  { unfold load_works_data. rewrite Hread, bool_decide_eq_true_2 by done.
    destruct (date_like_columns (strip_columns df)) as [|c rest];
      [reflexivity|].
    injection Hhead as ->. by rewrite Hparse. }
  split; [exact Hload|]. by apply get_client_works_empty_frame.
Qed.

(** The script's works file under a parser that rejects its dates. *)
Lemma load_works_data_drops_table_on_bad_date_sample :
  load_works_data (Samples.strict_host Samples.demo_works) "works.csv"
  = empty_frame
  /\ get_client_works
       (new_generator (Samples.strict_host Samples.demo_works) "clients.csv"
          "works.csv" 0.21) (VInt 12345)
     = empty_frame.
Proof.
  apply (load_works_data_drops_table_on_bad_date
           (Samples.strict_host Samples.demo_works) "clients.csv" "works.csv"
           0.21 Samples.demo_works "date"
           (ValueError "Unknown datetime string format") (VInt 12345));
    [reflexivity| |reflexivity|reflexivity].
  vm_compute. apply list_elem_of_further. apply list_elem_of_here.
Defined.

(** ** The script's run *)

Lemma save_invoice_to_file_disk_other (self : InvoiceGenerator) (inv : Invoice)
    (w : World) (p : string) :
  p <> "invoice_" ++ invoice_number inv ++ ".txt" ->
  disk (save_invoice_to_file self (Some inv) None w) !! p = disk w !! p.
Proof.
  intros Hp. unfold save_invoice_to_file. simpl default.
  destruct (open_error w _); [reflexivity|].
  destruct (print_invoice self (Some inv) []) as [lines [[]|e]]; simpl;
    by rewrite lookup_insert_ne.
Qed.

Lemma save_invoice_to_pdf_disk_other (self : InvoiceGenerator) (inv : Invoice)
    (w : World) (p : string) :
  p <> "invoice_" ++ invoice_number inv ++ ".pdf" ->
  disk (save_invoice_to_pdf self (Some inv) None w) !! p = disk w !! p.
Proof.
  intros Hp. unfold save_invoice_to_pdf. simpl default.
  destruct (pdf_story self inv); [|reflexivity].
  destruct (open_error w _); [reflexivity|]. simpl.
  by rewrite lookup_insert_ne.
Qed.

Lemma generate_invoice_default_number (self : InvoiceGenerator) (today : Date)
    (client_id : value) (date : option string) (inv : Invoice) :
  generate_invoice self today client_id None date = Ok (Some inv) ->
  invoice_number inv = "INV-" ++ strftime_Ymd today ++ "-" ++ py_str client_id.
Proof.
  unfold generate_invoice.
  destruct (get_client_data self client_id); [|discriminate].
  destruct (calculate_invoice_totals self _); simpl; [|discriminate].
  by intros [= <-].
Qed.

(** X11.  [main] reports a failure and writes nothing when the client
    file is absent.  Whatever the files hold, it changes no file but the
    text file and the PDF file named after the invoice of client 12345
    and of the day, and when it ends with an exception it has changed no
    file at all. *)
Theorem main_effect (host : Host) (today : Date) (w : World) :
  let number := "INV-" ++ strftime_Ymd today ++ "-12345" in
  (read_csv host "clients.csv" = FileNotFound ->
   main host today w = (say "Failed to generate invoice" w, Ok tt))
  /\ (forall p,
         p <> "invoice_" ++ number ++ ".txt" ->
         p <> "invoice_" ++ number ++ ".pdf" ->
         disk (main host today w).1 !! p = disk w !! p)
  /\ (forall e,
         (main host today w).2 = Raise e ->
         disk (main host today w).1 = disk w).
Proof.
  intros number. unfold main.
  set (generator := new_generator host "clients.csv" "works.csv" 0.21).
  split; [|split].
  - intros Hfile. unfold generate_invoice.
    rewrite (get_client_data_empty_frame generator (VInt 12345));
      [reflexivity|].
    unfold generator, new_generator, load_clients_data. simpl.
    by rewrite Hfile.
  - intros p Htxt Hpdf.
    destruct (generate_invoice generator today (VInt 12345) None None)
      as [[inv|]|e] eqn:Hgen; [|reflexivity..].
    pose proof (generate_invoice_default_number _ _ _ _ _ Hgen) as Hnumber.
    change (invoice_number inv = number) in Hnumber.
    destruct (print_invoice generator (Some inv) (console w))
      as [out [[]|e]]; [|reflexivity].
    cbn [fst].
    rewrite save_invoice_to_pdf_disk_other by (by rewrite Hnumber).
    by rewrite save_invoice_to_file_disk_other by (by rewrite Hnumber).
  - intros e.
    destruct (generate_invoice generator today (VInt 12345) None None)
      as [[inv|]|e'] eqn:Hgen; [|discriminate|reflexivity].
    destruct (print_invoice generator (Some inv) (console w))
      as [out [[]|e']]; [discriminate|reflexivity].
Qed.

(** With no file to read, the run says that it failed. *)
Lemma main_effect_sample :
  main Samples.bare_host Samples.today Samples.blank_world
  = (say "Failed to generate invoice" Samples.blank_world, Ok tt).
Proof.
  exact (proj1 (main_effect Samples.bare_host Samples.today Samples.blank_world)
           eq_refl).
Defined.

(** The run on the script's files: the invoice on the console, then the
    two notices, and the two files. *)
Example main_demo :
  let w' := (main (Samples.host_of Samples.demo_clients Samples.demo_works)
               Samples.today Samples.blank_world).1 in
  console w'
  = ((print_invoice Samples.demo Samples.demo_invoice []).1
       ++ ["Invoice saved to invoice_INV-20240203-12345.txt";
           "Invoice PDF saved to invoice_INV-20240203-12345.pdf"])%list
  /\ disk w' !! "invoice_INV-20240203-12345.txt"
     = Some (TextFile (print_invoice Samples.demo Samples.demo_invoice []).1)
  /\ is_Some (disk w' !! "invoice_INV-20240203-12345.pdf").
Proof.
  split; [vm_compute; reflexivity|].
  split; [vm_compute; reflexivity|].
  vm_compute. eexists. reflexivity.
Qed.

(** ** Labels with blanks around them *)

(** X12.  [load_clients_data] keeps the rows of the file and strips the
    blanks around its labels, so that a label written with blanks around
    a candidate name of the identifier is found by the client lookup. *)
Theorem load_clients_data_strips_labels (host : Host) (path : string)
    (df : DataFrame) (label : string) :
  read_csv host path = Parsed df ->
  label ∈ columns df ->
  PyStr.strip label ∈ client_id_columns ->
  rows (load_clients_data host path) = rows df
  /\ columns (load_clients_data host path) = map PyStr.strip (columns df)
  /\ exists col,
       first_column client_id_columns (load_clients_data host path) = Some col.
Proof.
  intros Hread Hlabel Hcand. unfold load_clients_data. rewrite Hread.
  split; [reflexivity|]. split; [reflexivity|].
  destruct (first_column client_id_columns (strip_columns df)) as [col|] eqn:Hcol;
    [eauto|].
  exfalso. apply (proj1 (first_column_None _ _) Hcol _ Hcand).
  simpl. apply list_elem_of_In, in_map, list_elem_of_In, Hlabel.
Qed.

(** A client file whose header reads " id , name". *)
Lemma load_clients_data_strips_labels_sample :
  let host := Samples.clients_only_host
                {| columns := [" id "; " name"];
                   dtypes := dtypes_of [Int64; Text];
                   rows := [ [VInt 1; VStr "Acme"] ] |} in
  rows (load_clients_data host "clients.csv") = [ [VInt 1; VStr "Acme"] ]
  /\ columns (load_clients_data host "clients.csv") = ["id"; "name"]
  /\ exists col,
       first_column client_id_columns (load_clients_data host "clients.csv")
       = Some col.
Proof.
  apply (load_clients_data_strips_labels
           (Samples.clients_only_host
              {| columns := [" id "; " name"];
                 dtypes := dtypes_of [Int64; Text];
                 rows := [ [VInt 1; VStr "Acme"] ] |})
           "clients.csv" _ " id " eq_refl).
  - apply list_elem_of_here.
  - vm_compute. apply list_elem_of_here.
Defined.
